(** * The weight quantizer and Move code generator of [dev_sdk/read_h5.py]

    A shallow embedding of the functions [float_to_fixed], [load_h5_model],
    [convert_weights_to_fixed], [generate_move_code], [generate_move_files]
    and of the file-producing prefix of [main], followed by the properties
    of the specification that concern them.

    Python floats are IEEE-754 binary64 numbers; they are modelled by the
    Standard Library's executable specification [spec_float], so that signed
    zeros, infinities, NaN and the rounding of every product are those of
    the interpreter.  Python integers are unbounded and are modelled by [Z]. *)

From Stdlib Require Import ZArith NArith List String Ascii Bool Lia.
From Stdlib Require Import Floats.SpecFloat.
From Stdlib Require Import DecimalString.
Import ListNotations.

Local Open Scope Z_scope.

(** * The program *)

(** ** Exceptions and the error monad *)

(** The exceptions the modelled functions can raise, one constructor per
    raising site. *)
Inductive exn : Type :=
| OverflowError_int_too_large      (* float * int, the int exceeds the double range *)
| OverflowError_float_infinity     (* round(inf) *)
| ValueError_float_nan             (* round(nan) *)
| ValueError_unpack (got : nat)    (* a, b = seq with len(seq) <> 2 *)
| IndexError                       (* seq[i] with i out of range *)
| KeyError (key : string)          (* mapping[key] with key absent *)
| Exception_both_loaders_failed.   (* raised by load_h5_model itself *)

(** The class of each exception. *)
Inductive pyclass : Type :=
| OverflowError
| ValueError
| LookupError     (* the base class of IndexError and KeyError *)
| PlainException. (* Exception itself *)

Definition exn_class (e : exn) : pyclass :=
  match e with
  | OverflowError_int_too_large | OverflowError_float_infinity => OverflowError
  | ValueError_float_nan | ValueError_unpack _ => ValueError
  | IndexError | KeyError _ => LookupError
  | Exception_both_loaders_failed => PlainException
  end.

Inductive result (A : Type) : Type :=
| Return (a : A)
| Raise (e : exn).

Arguments Return {A} a.
Arguments Raise {A} e.

Definition bind {A B : Type} (c : result A) (k : A -> result B) : result B :=
  match c with
  | Return a => k a
  | Raise e => Raise e
  end.

Notation "x <- c ;; k" := (bind c (fun x => k))
  (at level 61, c at next level, right associativity).
Notation "' pat <- c ;; k" := (bind c (fun x => match x with pat => k end))
  (at level 61, pat pattern, c at next level, right associativity).

(** [for x in xs: ys.append(f(x))], stopping at the first exception. *)
Fixpoint mapM {A B : Type} (f : A -> result B) (xs : list A) : result (list B) :=
  match xs with
  | [] => Return []
  | x :: xs' => y <- f x ;; ys <- mapM f xs' ;; Return (y :: ys)
  end.

(** ** Python floats *)

Module PyFloat.

Definition prec : Z := 53.
Definition emax : Z := 1024.

Definition float : Type := spec_float.

Definition pos_zero : float := S754_zero false.
Definition neg_zero : float := S754_zero true.
Definition nan : float := S754_nan.
Definition pos_inf : float := S754_infinity false.
Definition neg_inf : float := S754_infinity true.

Definition is_finite (x : float) : bool :=
  match x with
  | S754_zero _ | S754_finite _ _ _ => true
  | S754_infinity _ | S754_nan => false
  end.

(** [x < y] *)
Definition lt (x y : float) : bool := SFltb x y.

(** [abs(x)] *)
Definition abs (x : float) : float := SFabs x.

(** [x * y] on two floats, rounded to nearest, ties to even. *)
Definition mul (x y : float) : float := SFmul prec emax x y.

(** The coercion of an [int] operand of a float operation: the nearest
    double, ties to even; an integer that rounds beyond the largest
    double raises [OverflowError]. *)
Definition of_int (n : Z) : result float :=
  match binary_normalize prec emax n 0 false with
  | S754_infinity _ => Raise OverflowError_int_too_large
  | f => Return f
  end.

(** The integer nearest to [m * 2^e], for [m >= 0], ties to even. *)
Definition round_half_even (m e : Z) : Z :=
  if 0 <=? e then m * 2 ^ e
  else
    let d := 2 ^ (- e) in
    let q := m / d in
    let r := m mod d in
    match 2 * r ?= d with
    | Lt => q
    | Gt => q + 1
    | Eq => if Z.even q then q else q + 1
    end.

(** [round(x)] with one argument: an [int], the nearest integer with ties
    to even; NaN raises [ValueError], an infinity [OverflowError]. *)
Definition round (x : float) : result Z :=
  match x with
  | S754_nan => Raise ValueError_float_nan
  | S754_infinity _ => Raise OverflowError_float_infinity
  | S754_zero _ => Return 0
  | S754_finite s m e =>
      let n := round_half_even (Z.pos m) e in
      Return (if s then - n else n)
  end.

(** The double [(-1)^s * m * 2^e], for a mantissa of at most 53 bits. *)
Definition of_bits (s : bool) (m : positive) (e : Z) : float := S754_finite s m e.

End PyFloat.

(** ** [float_to_fixed] *)

(** [scale] ranges over the non-negative integers, the domain of the
    pipeline's configuration; there [10 ** scale] is an exact [int]. *)
Definition float_to_fixed (x : PyFloat.float) (scale : N) : result (Z * Z) :=
  let sign_bit := if PyFloat.lt x PyFloat.pos_zero then 1 else 0 in
  let x := PyFloat.abs x in
  let factor := 10 ^ Z.of_N scale in
  f <- PyFloat.of_int factor ;;
  abs_val <- PyFloat.round (PyFloat.mul x f) ;;
  Return (sign_bit, abs_val).

(** ** numpy arrays *)

(** An array is its shape and its elements, addressed by multi-index.
    Arrays of floats of any width are read through [float(val)], which
    widens exactly, so the elements are given as doubles. *)
Record ndarray : Type := {
  nd_shape : list nat;
  nd_item : list nat -> PyFloat.float
}.

(** The multi-indices of a shape in row-major (C) order: the last index
    varies fastest. *)
Fixpoint indices (sh : list nat) : list (list nat) :=
  match sh with
  | [] => [[]]
  | n :: sh' => flat_map (fun i => map (cons i) (indices sh')) (seq 0 n)
  end.

(** [a.flatten()] *)
Definition flatten (a : ndarray) : list PyFloat.float :=
  map (nd_item a) (indices (nd_shape a)).

(** [list(a.shape)] *)
Definition shape_list (a : ndarray) : list Z := map Z.of_nat (nd_shape a).

(** [numpy.array] of a list and of a list of rows with [cols] columns. *)
Definition array1 (xs : list PyFloat.float) : ndarray :=
  {| nd_shape := [List.length xs];
     nd_item := fun ix => match ix with
                          | [i] => nth i xs PyFloat.nan
                          | _ => PyFloat.nan
                          end |}.

Definition array2 (cols : nat) (rows : list (list PyFloat.float)) : ndarray :=
  {| nd_shape := [List.length rows; cols];
     nd_item := fun ix => match ix with
                          | [i; j] => nth j (nth i rows []) PyFloat.nan
                          | _ => PyFloat.nan
                          end |}.

(** ** The layer dictionaries *)

(** The dictionaries built by [load_h5_model]. *)
Module Weights.
Record entry : Type := { shape : list Z; data : ndarray }.
Record layer : Type := { layerName : string; kernel : entry; bias : entry }.
End Weights.

(** The dictionaries built by [convert_weights_to_fixed]. *)
Module Fixed.
Record entry : Type := { magnitude : list Z; sign : list Z; shape : list Z }.
Record layer : Type := {
  layerName : string;
  kernel : entry;
  bias : entry;
  scale : N
}.
End Fixed.

(** ** [load_h5_model] *)

(** What the extractor reads of a Keras layer: its name and the values of
    its weight variables; [layer.weights] lists the variables and
    [layer.get_weights()] their values, one array per variable. *)
Module Keras.
Record layer : Type := { name : string; weights : list ndarray }.
Definition get_weights (l : layer) : list ndarray := weights l.
Definition model : Type := list layer.
End Keras.

(** What the fallback reads of an HDF5 file: groups with named members,
    in the order [keys()] lists them, and datasets.  Which exception a
    failed access raises does not matter: the caller replaces it. *)
Module H5.
#[local] Set Warnings "-register-all".
Inductive node : Type :=
| Dataset (a : ndarray)
| Group (members : list (string * node)).

Definition file : Type := list (string * node).

Fixpoint lookup (members : list (string * node)) (key : string) : result node :=
  match members with
  | [] => Raise (KeyError key)
  | (k, n) :: rest => if String.eqb k key then Return n else lookup rest key
  end.

(** [g[key]] *)
Definition getitem (n : node) (key : string) : result node :=
  match n with
  | Group members => lookup members key
  | Dataset _ => Raise (KeyError key)
  end.

(** [d[()]] *)
Definition read (n : node) : result ndarray :=
  match n with
  | Dataset a => Return a
  | Group _ => Raise (KeyError EmptyString)
  end.
End H5.

(** [sub in s] *)
Fixpoint contains (sub s : string) : bool :=
  if String.prefix sub s then true
  else match s with
       | EmptyString => false
       | String _ s' => contains sub s'
       end.

(** The loop over [model.layers]. *)
Fixpoint load_keras_layers (layers : list Keras.layer)
    (converted_weights : list Weights.layer) : list Weights.layer :=
  match layers with
  | [] => converted_weights
  | layer :: rest =>
      match Keras.weights layer with
      | [] => load_keras_layers rest converted_weights
      | _ =>
          let weights := Keras.get_weights layer in
          match weights with
          | [kernel; bias] =>
              load_keras_layers rest
                (converted_weights ++
                 [ {| Weights.layerName := Keras.name layer;
                      Weights.kernel := {| Weights.shape := shape_list kernel;
                                           Weights.data := kernel |};
                      Weights.bias := {| Weights.shape := shape_list bias;
                                         Weights.data := bias |} |} ])
          | _ => load_keras_layers rest converted_weights
          end
      end
  end.

(** The loop over [f.keys()] of the fallback. *)
Fixpoint load_h5_layers (f : H5.file) (members : list (string * H5.node))
    (converted_weights : list Weights.layer) : result (list Weights.layer) :=
  match members with
  | [] => Return converted_weights
  | (layer_name, _) :: rest =>
      if contains "dense"%string layer_name then
        g <- H5.lookup f layer_name ;;
        d <- H5.getitem g "dense"%string ;;
        kn <- H5.getitem d "kernel:0"%string ;;
        weights <- H5.read kn ;;
        g' <- H5.lookup f layer_name ;;
        d' <- H5.getitem g' "dense"%string ;;
        bn <- H5.getitem d' "bias:0"%string ;;
        bias <- H5.read bn ;;
        load_h5_layers f rest
          (converted_weights ++
           [ {| Weights.layerName := layer_name;
                Weights.kernel := {| Weights.shape := shape_list weights;
                                     Weights.data := weights |};
                Weights.bias := {| Weights.shape := shape_list bias;
                                   Weights.data := bias |} |} ])
      else load_h5_layers f rest converted_weights
  end.

(** [keras] is the outcome of [tf.keras.models.load_model] and [h5] that
    of [h5py.File], [None] when the call raises.  Any exception of the
    first attempt leads to the second; any exception of the second is
    replaced by the function's own. *)
Definition load_h5_model (keras : option Keras.model) (h5 : option H5.file)
    : result (list Weights.layer) :=
  match keras with
  | Some model => Return (load_keras_layers model [])
  | None =>
      match h5 with
      | Some f =>
          match load_h5_layers f f [] with
          | Return converted_weights => Return converted_weights
          | Raise _ => Raise Exception_both_loaders_failed
          end
      | None => Raise Exception_both_loaders_failed
      end
  end.

(** ** [convert_weights_to_fixed] *)

(** The inner loops: one codec call per element, appending to both lists. *)
Fixpoint fixed_loop (vals : list PyFloat.float) (scale : N)
    (signs mags : list Z) : result (list Z * list Z) :=
  match vals with
  | [] => Return (signs, mags)
  | val :: rest =>
      '(sign, mag) <- float_to_fixed val scale ;;
      fixed_loop rest scale (signs ++ [sign]) (mags ++ [mag])
  end.

Definition convert_layer (layer : Weights.layer) (scale : N) : result Fixed.layer :=
  '(kernel_signs, kernel_mags) <-
     fixed_loop (flatten (Weights.data (Weights.kernel layer))) scale [] [] ;;
  '(bias_signs, bias_mags) <-
     fixed_loop (flatten (Weights.data (Weights.bias layer))) scale [] [] ;;
  Return {| Fixed.layerName := Weights.layerName layer;
            Fixed.kernel := {| Fixed.magnitude := kernel_mags;
                               Fixed.sign := kernel_signs;
                               Fixed.shape := Weights.shape (Weights.kernel layer) |};
            Fixed.bias := {| Fixed.magnitude := bias_mags;
                             Fixed.sign := bias_signs;
                             Fixed.shape := Weights.shape (Weights.bias layer) |};
            Fixed.scale := scale |}.

(** The outer loop. *)
Fixpoint convert_loop (weights : list Weights.layer) (scale : N)
    (converted : list Fixed.layer) : result (list Fixed.layer) :=
  match weights with
  | [] => Return converted
  | layer :: rest =>
      q <- convert_layer layer scale ;;
      convert_loop rest scale (converted ++ [q])
  end.

Definition convert_weights_to_fixed (weights : list Weights.layer) (scale : N)
    : result (list Fixed.layer) :=
  convert_loop weights scale [].

(** ** [generate_move_code] *)

(** [str(n)] of an [int], within the interpreter's limit on the digits of
    a conversion. *)
Definition str (n : Z) : string := NilZero.string_of_int (Z.to_int n).

(** [a, b = seq] *)
Definition unpack2 {A : Type} (seq : list A) : result (A * A) :=
  match seq with
  | [a; b] => Return (a, b)
  | _ => Raise (ValueError_unpack (List.length seq))
  end.

(** [seq[i]] *)
Definition getitem {A : Type} (seq : list A) (i : nat) : result A :=
  match nth_error seq i with
  | Some a => Return a
  | None => Raise IndexError
  end.

(** The text of the templates.  The quotation mark and the line feed are
    named; every other character stands for itself. *)
Module MoveText.
Local Open Scope string_scope.

Definition dq : string := String (ascii_of_nat 34) EmptyString.
Definition nl : string := String (ascii_of_nat 10) EmptyString.

(** The lines of a block of text, joined by line feeds. *)
Definition lines (ls : list string) : string := String.concat nl ls.

(** The first literal, an f-string without fields. *)
Definition header_lines : list string :=
  [ "module models::model {";
    "    use sui::tx_context::TxContext;";
    "    use tensorflowsui::graph;";
    "    use tensorflowsui::tensor;";
    EmptyString;
    "    public fun create_model_signed_fixed(graph: &mut graph::SignedFixedGraph, scale: u64) {";
    EmptyString ].

Definition header : string := lines header_lines.

(** The declaration of one layer, ended by a line feed. *)
Definition declaration (input_size output_size : Z) (layerName : string) : string :=
  "        graph::DenseSignedFixed(graph, " ++ str input_size ++ ", " ++
  str output_size ++ ", b" ++ dq ++ layerName ++ dq ++ ", scale);" ++ nl.

(** [f"vector[{', '.join(map(str, xs))}]"] *)
Definition vector (xs : list Z) : string :=
  "vector[" ++ String.concat ", " (map str xs) ++ "]".

(** The weight block of one layer: it starts with a line feed and ends
    without one. *)
Definition weight_block (layerName kernel_mag kernel_sign bias_mag bias_sign : string)
    (shape0 shape1 : Z) : string :=
  lines
    [ EmptyString;
      "        let w" ++ layerName ++ "_mag = " ++ kernel_mag ++ ";";
      "        let w" ++ layerName ++ "_sign = " ++ kernel_sign ++ ";";
      "        let b" ++ layerName ++ "_mag = " ++ bias_mag ++ ";";
      "        let b" ++ layerName ++ "_sign = " ++ bias_sign ++ ";";
      EmptyString;
      "        graph::set_layer_weights_signed_fixed(";
      "            graph,";
      "            b" ++ dq ++ layerName ++ dq ++ ",";
      "            w" ++ layerName ++ "_mag, w" ++ layerName ++ "_sign,";
      "            b" ++ layerName ++ "_mag, b" ++ layerName ++ "_sign,";
      "            " ++ str shape0 ++ ", " ++ str shape1 ++ ",";
      "            scale";
      "        );" ].

(** The last literal.  It is a plain string, not an f-string: its braces
    and the word between them are emitted as they stand. *)
Definition footer_lines : list string :=
  [ EmptyString;
    "    }";
    EmptyString;
    "    entry public fun split_chunk_compute(";
    "        graph_obj: &graph::SignedFixedGraph,";
    "        pd: &mut graph::PartialDenses,";
    "        partial_name: vector<u8>,";
    "        input_magnitude: vector<u64>, input_sign: vector<u64>,";
    "        activation_type: u64,";
    "        start_j: u64,";
    "        end_j: u64";
    "    ) {";
    "        graph::split_chunk_compute(graph_obj, pd, partial_name, input_magnitude, input_sign, activation_type, start_j, end_j);    ";
    "    }";
    EmptyString;
    "    entry public fun split_chunk_finalize(";
    "        pd: &mut graph::PartialDenses,";
    "        partial_name: vector<u8>";
    "    ): (vector<u64>, vector<u64>, u64) {";
    "        let mut results_mag = vector::empty<u64>();";
    "        let mut result_sign = vector::empty<u64>();";
    "        let mut results;";
    "        let (_results_mag, _result_sign, _results) = graph::split_chunk_finalize(pd, partial_name);";
    EmptyString;
    "        results_mag = _results_mag;";
    "        result_sign = _result_sign;";
    "        results = _results;";
    EmptyString;
    "        (results_mag, result_sign, results)";
    "    }";
    EmptyString;
    "    entry public fun ptb_layer(";
    "        graph: &graph::SignedFixedGraph,";
    "        input_magnitude: vector<u64>, input_sign: vector<u64>,";
    "        scale: u64, name: vector<u8>";
    "    ) : (vector<u64>, vector<u64>, u64) {";
    "        let mut results_mag = vector::empty<u64>();";
    "        let mut result_sign = vector::empty<u64>();";
    "        let mut results;";
    EmptyString;
    "        let (_results_mag, _result_sign, _results) = graph::ptb_layer(graph, input_magnitude, input_sign, scale, name);";
    EmptyString;
    "        results_mag = _results_mag;";
    "        result_sign = _result_sign;";
    "        results = _results;";
    EmptyString;
    "        (results_mag, result_sign, results)";
    "    }";
    EmptyString;
    "    entry public fun ptb_layer_arg_max(";
    "        graph: &graph::SignedFixedGraph,";
    "        input_magnitude: vector<u64>, input_sign: vector<u64>,";
    "        scale: u64, name: vector<u8>";
    "    ) : u64 {";
    "        let results = graph::ptb_layer_arg_max(graph, input_magnitude, input_sign, scale, name);";
    "        results";
    "    }";
    EmptyString;
    "    public entry fun initialize(ctx: &mut TxContext) {";
    "        let mut graph = graph::create_signed_graph(ctx);";
    "        create_model_signed_fixed(&mut graph, {scale}); ";
    "        let mut partials = graph::create_partial_denses(ctx);";
    "        graph::add_partials_for_all_but_last(&graph, &mut partials);";
    "        graph::share_graph(graph);";
    "        graph::share_partial(partials);";
    "    }";
    "}}" ].

Definition footer : string := lines footer_lines.

End MoveText.

(** The first loop: one declaration per layer. *)
Fixpoint declare_loop (converted_weights : list Fixed.layer) (move_code : string)
    : result string :=
  match converted_weights with
  | [] => Return move_code
  | layer :: rest =>
      '(input_size, output_size) <- unpack2 (Fixed.shape (Fixed.kernel layer)) ;;
      declare_loop rest
        (move_code ++ MoveText.declaration input_size output_size (Fixed.layerName layer))%string
  end.

(** The second loop: one weight block per layer. *)
Fixpoint weights_loop (converted_weights : list Fixed.layer) (move_code : string)
    : result string :=
  match converted_weights with
  | [] => Return move_code
  | layer :: rest =>
      let kernel_mag := MoveText.vector (Fixed.magnitude (Fixed.kernel layer)) in
      let kernel_sign := MoveText.vector (Fixed.sign (Fixed.kernel layer)) in
      let bias_mag := MoveText.vector (Fixed.magnitude (Fixed.bias layer)) in
      let bias_sign := MoveText.vector (Fixed.sign (Fixed.bias layer)) in
      shape0 <- getitem (Fixed.shape (Fixed.kernel layer)) 0 ;;
      shape1 <- getitem (Fixed.shape (Fixed.kernel layer)) 1 ;;
      weights_loop rest
        (move_code ++ MoveText.weight_block (Fixed.layerName layer)
                        kernel_mag kernel_sign bias_mag bias_sign shape0 shape1)%string
  end.

Definition generate_move_code (converted_weights : list Fixed.layer) (scale : N)
    : result string :=
  let move_code := MoveText.header in
  move_code <- declare_loop converted_weights move_code ;;
  move_code <- weights_loop converted_weights move_code ;;
  Return (move_code ++ MoveText.footer)%string.

(** ** [generate_move_toml], [generate_move_files] and [main] *)

(** The configuration dictionary, as its items. *)
Definition config : Type := list (string * string).

(** [config[key]] *)
Fixpoint config_get (c : config) (key : string) : result string :=
  match c with
  | [] => Raise (KeyError key)
  | (k, v) :: rest => if String.eqb k key then Return v else config_get rest key
  end.

Module TomlText.
Import MoveText.
Local Open Scope string_scope.

Definition manifest (network : string) : string :=
  lines
    [ "[package]";
      "name = " ++ dq ++ "Model" ++ dq;
      "edition = " ++ dq ++ "2024.beta" ++ dq;
      EmptyString;
      "[dependencies]";
      "Sui = { git = " ++ dq ++ "https://github.com/MystenLabs/sui.git" ++ dq ++
        ", subdir = " ++ dq ++ "crates/sui-framework/packages/sui-framework" ++ dq ++
        ", rev = " ++ dq ++ "framework/" ++ network ++ dq ++ " }";
      "tensorflowsui = { git = " ++ dq ++ "https://github.com/depinity/tensorflowsui.git" ++ dq ++
        ", subdir = " ++ dq ++ "tensorflowSuiLib/v.1.0.1" ++ dq ++
        ", rev = " ++ dq ++ "main" ++ dq ++ " }";
      EmptyString;
      "[addresses]";
      "models = " ++ dq ++ "0x0" ++ dq;
      EmptyString;
      "[dev-dependencies]";
      EmptyString;
      "[dev-addresses]";
      EmptyString ].
End TomlText.

Definition generate_move_toml (c : config) : result string :=
  network <- config_get c "NETWORK"%string ;;
  Return (TomlText.manifest network).

(** The effects on the file system, in the order they happen.  A function
    with effects returns them with its result; what was done before an
    exception stays done. *)
Inductive effect : Type :=
| Makedirs (path : string)
| WriteFile (path content : string).

Definition io (A : Type) : Type := list effect * result A.

Definition io_bind {A B : Type} (c : io A) (k : A -> io B) : io B :=
  match c with
  | (log, Return a) => let '(log', r) := k a in (log ++ log', r)
  | (log, Raise e) => (log, Raise e)
  end.

Definition pure {A : Type} (r : result A) : io A := ([], r).
Definition perform (ev : effect) : io unit := ([ev], Return tt).

Notation "x <~ c ;; k" := (io_bind c (fun x => k))
  (at level 61, c at next level, right associativity).

Definition generate_move_files (converted_weights : list Fixed.layer) (scale : N)
    (c : config) : io unit :=
  _ <~ perform (Makedirs "./with_git_dependencies/sources") ;;
  move_toml <~ pure (generate_move_toml c) ;;
  _ <~ perform (WriteFile "./with_git_dependencies/Move.toml" move_toml) ;;
  move_code <~ pure (generate_move_code converted_weights scale) ;;
  perform (WriteFile "./with_git_dependencies/sources/model.move" move_code).

(** [main] from the loading of the model to the writing of the two files;
    [scale] is [int(config["SCALE"])], read before.  The publication and
    the upload that follow talk to remote services and are left out. *)
Definition main_generate (keras : option Keras.model) (h5 : option H5.file)
    (scale : N) (c : config) : io unit :=
  weights <~ pure (load_h5_model keras h5) ;;
  converted_weights <~ pure (convert_weights_to_fixed weights scale) ;;
  generate_move_files converted_weights scale c.

(** The whole conversion as a function of the loaded layers:
    [generate(quantize(layers, scale), scale)]. *)
Definition quantize_and_generate (weights : list Weights.layer) (scale : N)
    : result string :=
  converted_weights <- convert_weights_to_fixed weights scale ;;
  generate_move_code converted_weights scale.

(** * Definitions for the statements *)

(** The position and the exception of the first element [f] raises on,
    counting from [i]. *)
Fixpoint first_error {A B : Type} (f : A -> result B) (xs : list A) (i : nat)
    : option (nat * exn) :=
  match xs with
  | [] => None
  | x :: xs' =>
      match f x with
      | Raise e => Some (i, e)
      | Return _ => first_error f xs' (S i)
      end
  end.

(** The codec at a given scale, as the function the loops apply. *)
Definition codec (scale : N) : PyFloat.float -> result (Z * Z) :=
  fun v => float_to_fixed v scale.

(** ** The codec as the specification words it *)

(** [1 if x < 0 else 0] *)
Definition sign_bit (x : PyFloat.float) : Z :=
  if PyFloat.lt x PyFloat.pos_zero then 1 else 0.

(** The double nearest to [10 ** scale]. *)
Definition pow10_float (scale : N) : PyFloat.float :=
  binary_normalize PyFloat.prec PyFloat.emax (10 ^ Z.of_N scale) 0 false.

(** The double product [abs(x) * 10 ** scale]. *)
Definition scaled (x : PyFloat.float) (scale : N) : PyFloat.float :=
  PyFloat.mul (PyFloat.abs x) (pow10_float scale).

(** The integer nearest to the magnitude of a finite double, ties to even. *)
Definition nearest (p : PyFloat.float) : Z :=
  match p with
  | S754_finite _ m e => PyFloat.round_half_even (Z.pos m) e
  | _ => 0
  end.

(** The specification's magnitude: the integer nearest to the real number
    [|x| * 10^scale], the product taken exactly.  For [x = m * 2^e] the
    product is [(m * 10^scale) * 2^e]. *)
Definition exact_magnitude (x : PyFloat.float) (scale : N) : Z :=
  match x with
  | S754_finite _ m e => PyFloat.round_half_even (Z.pos m * 10 ^ Z.of_N scale) e
  | _ => 0
  end.

(** The exception the codec raises on a NaN or an infinity: that of
    [round] up to scale 308, that of the multiplication beyond. *)
Definition nonfinite_error (x : PyFloat.float) (scale : N) : exn :=
  if (scale <=? 308)%N then
    match x with
    | S754_nan => ValueError_float_nan
    | _ => OverflowError_float_infinity
    end
  else OverflowError_int_too_large.

(** The finite doubles above zero. *)
Definition pos_finite (f : PyFloat.float) : bool :=
  match f with
  | S754_finite false _ _ => true
  | _ => false
  end.

(** The number of elements of a shape. *)
Definition size (sh : list nat) : nat := fold_right Nat.mul 1%nat sh.

(** The elements of a layer in the order the pass visits them. *)
Definition elements (layer : Weights.layer) : list PyFloat.float :=
  (flatten (Weights.data (Weights.kernel layer)) ++
   flatten (Weights.data (Weights.bias layer)))%list.

Inductive tensor_role : Type := Kernel | Bias.

(** The tensor, the flat index and the exception of the first element of a
    layer the codec raises on. *)
Definition layer_failure (layer : Weights.layer) (scale : N)
    : option (tensor_role * nat * exn) :=
  match first_error (codec scale) (flatten (Weights.data (Weights.kernel layer))) 0 with
  | Some (i, e) => Some (Kernel, i, e)
  | None =>
      match first_error (codec scale) (flatten (Weights.data (Weights.bias layer))) 0 with
      | Some (i, e) => Some (Bias, i, e)
      | None => None
      end
  end.

(** The same over the layers in order, with the name of the layer. *)
Fixpoint first_failure (weights : list Weights.layer) (scale : N)
    : option (string * tensor_role * nat * exn) :=
  match weights with
  | [] => None
  | layer :: rest =>
      match layer_failure layer scale with
      | Some (role, i, e) => Some (Weights.layerName layer, role, i, e)
      | None => first_failure rest scale
      end
  end.

(** The entry [e] holds, position by position, the codec's results on
    [vals]. *)
Definition encoded (scale : N) (vals : list PyFloat.float) (e : Fixed.entry) : Prop :=
  List.length (Fixed.magnitude e) = List.length vals /\
  List.length (Fixed.sign e) = List.length vals /\
  forall i x, nth_error vals i = Some x ->
    exists s m, float_to_fixed x scale = Return (s, m) /\
                nth_error (Fixed.sign e) i = Some s /\
                nth_error (Fixed.magnitude e) i = Some m.

(** What the pass makes of one layer, whatever its shapes. *)
Record quantized (scale : N) (l : Weights.layer) (q : Fixed.layer) : Prop := {
  quantized_name : Fixed.layerName q = Weights.layerName l;
  quantized_scale : Fixed.scale q = scale;
  quantized_kernel_shape : Fixed.shape (Fixed.kernel q) = Weights.shape (Weights.kernel l);
  quantized_bias_shape : Fixed.shape (Fixed.bias q) = Weights.shape (Weights.bias l);
  quantized_kernel :
    encoded scale (flatten (Weights.data (Weights.kernel l))) (Fixed.kernel q);
  quantized_bias :
    encoded scale (flatten (Weights.data (Weights.bias l))) (Fixed.bias q)
}.

(** The invariant of a layer record: a kernel of [rows] by [cols] elements,
    stored with that shape, and a bias of [cols] elements. *)
Definition dense_record (rows cols : nat) (l : Weights.layer) : Prop :=
  nd_shape (Weights.data (Weights.kernel l)) = [rows; cols] /\
  Weights.shape (Weights.kernel l) = [Z.of_nat rows; Z.of_nat cols] /\
  nd_shape (Weights.data (Weights.bias l)) = [cols].

(** What the pass makes of such a record: the stored shape is still
    [(rows, cols)], the lists have [rows * cols] and [cols] elements, and
    position [r * cols + c] holds the encoding of the kernel's element
    [(r, c)]. *)
Definition dense_layout (scale : N) (l : Weights.layer) (q : Fixed.layer) : Prop :=
  forall rows cols, dense_record rows cols l ->
    Fixed.shape (Fixed.kernel q) = [Z.of_nat rows; Z.of_nat cols] /\
    List.length (Fixed.magnitude (Fixed.kernel q)) = (rows * cols)%nat /\
    List.length (Fixed.sign (Fixed.kernel q)) = (rows * cols)%nat /\
    List.length (Fixed.magnitude (Fixed.bias q)) = cols /\
    List.length (Fixed.sign (Fixed.bias q)) = cols /\
    (forall r c, (r < rows)%nat -> (c < cols)%nat ->
       exists s m,
         float_to_fixed (nd_item (Weights.data (Weights.kernel l)) [r; c]) scale
           = Return (s, m) /\
         nth_error (Fixed.sign (Fixed.kernel q)) (r * cols + c) = Some s /\
         nth_error (Fixed.magnitude (Fixed.kernel q)) (r * cols + c) = Some m) /\
    (forall c, (c < cols)%nat ->
       exists s m,
         float_to_fixed (nd_item (Weights.data (Weights.bias l)) [c]) scale
           = Return (s, m) /\
         nth_error (Fixed.sign (Fixed.bias q)) c = Some s /\
         nth_error (Fixed.magnitude (Fixed.bias q)) c = Some m).

(** Two arrays with the same shape and the same element at every index of
    the shape; two records, two Keras layers with the same names, stored
    shapes and arrays.  This is what is the same in two loads of one model. *)
Definition same_array (a b : ndarray) : Prop :=
  nd_shape a = nd_shape b /\
  forall ix, In ix (indices (nd_shape a)) -> nd_item a ix = nd_item b ix.

Definition same_entry (e e' : Weights.entry) : Prop :=
  Weights.shape e = Weights.shape e' /\ same_array (Weights.data e) (Weights.data e').

Definition same_record (l l' : Weights.layer) : Prop :=
  Weights.layerName l = Weights.layerName l' /\
  same_entry (Weights.kernel l) (Weights.kernel l') /\
  same_entry (Weights.bias l) (Weights.bias l').

Definition same_keras_layer (l l' : Keras.layer) : Prop :=
  Keras.name l = Keras.name l' /\ Forall2 same_array (Keras.weights l) (Keras.weights l').

(** The conversion of a loaded model to text:
    [generate(quantize(extract(model), scale), scale)]. *)
Definition convert_model (model : Keras.model) (scale : N) : result string :=
  weights <- load_h5_model (Some model) None ;;
  quantize_and_generate weights scale.

(** The fields of a quantized layer the generator prints. *)
Record same_printed_fields (q q' : Fixed.layer) : Prop := {
  same_name : Fixed.layerName q = Fixed.layerName q';
  same_kernel_magnitude :
    Fixed.magnitude (Fixed.kernel q) = Fixed.magnitude (Fixed.kernel q');
  same_kernel_sign : Fixed.sign (Fixed.kernel q) = Fixed.sign (Fixed.kernel q');
  same_kernel_shape : Fixed.shape (Fixed.kernel q) = Fixed.shape (Fixed.kernel q');
  same_bias_magnitude : Fixed.magnitude (Fixed.bias q) = Fixed.magnitude (Fixed.bias q');
  same_bias_sign : Fixed.sign (Fixed.bias q) = Fixed.sign (Fixed.bias q')
}.

(** The declaration and the weight block of a layer whose kernel shape has
    two components. *)
Definition declaration_of (q : Fixed.layer) : string :=
  MoveText.declaration (nth 0 (Fixed.shape (Fixed.kernel q)) 0)
                       (nth 1 (Fixed.shape (Fixed.kernel q)) 0)
                       (Fixed.layerName q).

Definition weight_block_of (q : Fixed.layer) : string :=
  MoveText.weight_block (Fixed.layerName q)
    (MoveText.vector (Fixed.magnitude (Fixed.kernel q)))
    (MoveText.vector (Fixed.sign (Fixed.kernel q)))
    (MoveText.vector (Fixed.magnitude (Fixed.bias q)))
    (MoveText.vector (Fixed.sign (Fixed.bias q)))
    (nth 0 (Fixed.shape (Fixed.kernel q)) 0)
    (nth 1 (Fixed.shape (Fixed.kernel q)) 0).

(** The strings of a list, one after the other. *)
Definition join (ls : list string) : string := fold_right String.append EmptyString ls.

Definition rank2 (q : Fixed.layer) : Prop :=
  List.length (Fixed.shape (Fixed.kernel q)) = 2%nat.

(** The record the extractor builds from a name and two arrays. *)
Definition dense_layer (name : string) (kernel bias : ndarray) : Weights.layer :=
  {| Weights.layerName := name;
     Weights.kernel := {| Weights.shape := shape_list kernel; Weights.data := kernel |};
     Weights.bias := {| Weights.shape := shape_list bias; Weights.data := bias |} |}.

(** An array without elements, for positions that are never read. *)
Definition no_array : ndarray := array1 [].

(** A layer is retained when it has exactly two weight arrays. *)
Definition retained (l : Keras.layer) : bool :=
  Nat.eqb (List.length (Keras.weights l)) 2.

(** The record of a retained layer. *)
Definition record_of (l : Keras.layer) : Weights.layer :=
  dense_layer (Keras.name l)
              (nth 0 (Keras.weights l) no_array)
              (nth 1 (Keras.weights l) no_array).

(** ** Sample values *)

(** Some doubles, by their binary expansion. *)
Module Sample.
Definition one : PyFloat.float := PyFloat.of_bits false 4503599627370496 (-52).
Definition half : PyFloat.float := PyFloat.of_bits false 4503599627370496 (-53).
Definition minus_two : PyFloat.float := PyFloat.of_bits true 4503599627370496 (-51).
Definition d_1_005 : PyFloat.float := PyFloat.of_bits false 4526117625507348 (-52).
Definition d_2_675 : PyFloat.float := PyFloat.of_bits false 6023564501608038 (-51).
Definition d_3_7 : PyFloat.float := PyFloat.of_bits false 8331659310635418 (-51).
Definition d_1e20 : PyFloat.float := PyFloat.of_bits false 6103515625000000 14.
Definition two_pow_64 : PyFloat.float := PyFloat.of_bits false 4503599627370496 12.
Definition two_pow_1023 : PyFloat.float := PyFloat.of_bits false 4503599627370496 971.
End Sample.

(** A model of one dense layer whose bias holds a NaN. *)
Definition nan_kernel : ndarray := array2 1 [[Sample.d_1_005]; [Sample.minus_two]].
Definition nan_bias : ndarray := array1 [PyFloat.nan].

Definition nan_model : Keras.model :=
  [ {| Keras.name := "dense_1"; Keras.weights := [nan_kernel; nan_bias] |} ].

Definition nan_layer : Weights.layer :=
  {| Weights.layerName := "dense_1";
     Weights.kernel := {| Weights.shape := [2; 1]; Weights.data := nan_kernel |};
     Weights.bias := {| Weights.shape := [1]; Weights.data := nan_bias |} |}.

(** Two layer lists that fail at different places: layer [a], kernel,
    index 0, and layer [b], bias, index 1. *)
Definition fails_in_a : list Weights.layer :=
  [ dense_layer "a" (array2 1 [[PyFloat.nan]]) (array1 [Sample.half]) ].

Definition layer_b : Weights.layer :=
  dense_layer "b" (array2 2 [[Sample.one; Sample.one]]) (array1 [Sample.half; PyFloat.nan]).

Definition fails_in_b : list Weights.layer :=
  [ dense_layer "a" (array2 1 [[Sample.one]]) (array1 [Sample.half]); layer_b ].

(** The first scenario of the specification: one layer of a 2 by 1 kernel. *)
Definition scenario_a : list Weights.layer :=
  [ dense_layer "dense_1" (array2 1 [[Sample.d_1_005]; [Sample.minus_two]])
                (array1 [Sample.half]) ].

Definition sample_quantized : Fixed.layer :=
  {| Fixed.layerName := "dense_1";
     Fixed.kernel := {| Fixed.magnitude := [100; 200];
                        Fixed.sign := [0; 1];
                        Fixed.shape := [2; 1] |};
     Fixed.bias := {| Fixed.magnitude := [50]; Fixed.sign := [0]; Fixed.shape := [1] |};
     Fixed.scale := 2 |}.

(** One model given twice: the second time the arrays are other functions
    with the same elements. *)
Definition model_once : Keras.model :=
  [ {| Keras.name := "dense_1";
       Keras.weights := [array2 1 [[Sample.one]; [Sample.one]]; array1 [Sample.half]] |} ].

Definition model_again : Keras.model :=
  [ {| Keras.name := "dense_1";
       Keras.weights := [ {| nd_shape := [2; 1]%nat; nd_item := fun _ => Sample.one |};
                          {| nd_shape := [1]%nat; nd_item := fun _ => Sample.half |} ] |} ].

(** The sample layer with another stored scale and another bias shape. *)
Definition sample_quantized' : Fixed.layer :=
  {| Fixed.layerName := "dense_1";
     Fixed.kernel := {| Fixed.magnitude := [100; 200];
                        Fixed.sign := [0; 1];
                        Fixed.shape := [2; 1] |};
     Fixed.bias := {| Fixed.magnitude := [50]; Fixed.sign := [0]; Fixed.shape := [7; 7] |};
     Fixed.scale := 9 |}.

(** The second scenario of the specification: a layer with a kernel and no
    bias between two dense layers. *)
Definition scenario_b : Keras.model :=
  [ {| Keras.name := "dense_1";
       Keras.weights := [array2 1 [[Sample.one]]; array1 [Sample.half]] |};
    {| Keras.name := "no_bias"; Keras.weights := [array2 1 [[Sample.one]]] |};
    {| Keras.name := "dropout"; Keras.weights := [] |};
    {| Keras.name := "dense_2";
       Keras.weights := [array2 1 [[Sample.half]]; array1 [Sample.one]] |} ].

(** A layer whose kernel has 3 columns and whose bias has 5 elements. *)
Definition mismatched_kernel : ndarray :=
  array2 3 [[Sample.one; Sample.one; Sample.one]; [Sample.one; Sample.one; Sample.one]].
Definition mismatched_bias : ndarray :=
  array1 [Sample.half; Sample.half; Sample.half; Sample.half; Sample.half].
Definition mismatched : Keras.layer :=
  {| Keras.name := "dense_1"; Keras.weights := [mismatched_kernel; mismatched_bias] |}.

(** * The rest of the program *)

(** ** String methods *)

(** The characters of a [str] are taken as code points below 256. *)
Module PyStr.

(** [c.isspace()] *)
Definition isspace (c : ascii) : bool :=
  let n := N_of_ascii c in
  ((9 <=? n) && (n <=? 13) || (28 <=? n) && (n <=? 32) || (n =? 133) || (n =? 160))%N.

(** [s.lstrip(chars)], [s.rstrip(chars)] and [s.strip(chars)], the set of
    characters given by its membership test. *)
Fixpoint lstrip_by (p : ascii -> bool) (s : string) : string :=
  match s with
  | EmptyString => EmptyString
  | String c s' => if p c then lstrip_by p s' else s
  end.

Fixpoint rstrip_by (p : ascii -> bool) (s : string) : string :=
  match s with
  | EmptyString => EmptyString
  | String c s' =>
      match rstrip_by p s' with
      | EmptyString => if p c then EmptyString else String c EmptyString
      | r => String c r
      end
  end.

Definition strip_by (p : ascii -> bool) (s : string) : string :=
  rstrip_by p (lstrip_by p s).

(** [c in chars] *)
Fixpoint mem (c : ascii) (chars : string) : bool :=
  match chars with
  | EmptyString => false
  | String d chars' => Ascii.eqb c d || mem c chars'
  end.

(** [s.strip()] *)
Definition strip (s : string) : string := strip_by isspace s.

(** [s.strip(chars)] *)
Definition strip_chars (chars s : string) : string := strip_by (fun c => mem c chars) s.

(** [s.split(sep)] for a separator of one character. *)
Fixpoint split (sep : ascii) (s : string) : list string :=
  match s with
  | EmptyString => [EmptyString]
  | String c s' =>
      if Ascii.eqb c sep then EmptyString :: split sep s'
      else match split sep s' with
           | part :: parts => String c part :: parts
           | [] => [String c EmptyString]
           end
  end.

(** [s.startswith(prefix)] *)
Definition startswith (s prefix : string) : bool := String.prefix prefix s.

(** [bool(s)] *)
Definition nonempty (s : string) : bool :=
  match s with
  | EmptyString => false
  | String _ _ => true
  end.

End PyStr.

(** ** [load_config] *)

(** [config[key] = value]: the value of a key already present is replaced
    where it stands, a new key is added at the end. *)
Fixpoint dict_set (c : config) (key value : string) : config :=
  match c with
  | [] => [(key, value)]
  | (k, v) :: rest =>
      if String.eqb k key then (k, value) :: rest
      else (k, v) :: dict_set rest key value
  end.

(** The characters [value.strip] is given: both quotes, space, tab and
    semicolon. *)
Definition quote_chars : string :=
  String "'" (String (ascii_of_nat 34) (String " " (String (ascii_of_nat 9) (String ";" EmptyString)))).

(** The loop over the lines of the file. *)
Fixpoint load_config_loop (lines : list string) (c : config) : result config :=
  match lines with
  | [] => Return c
  | line :: rest =>
      let line := PyStr.strip line in
      if PyStr.nonempty line && negb (PyStr.startswith line "#") then
        if contains "=" line then
          '(key, value) <- unpack2 (map PyStr.strip (PyStr.split "=" line)) ;;
          load_config_loop rest (dict_set c key (PyStr.strip_chars quote_chars value))
        else load_config_loop rest c
      else load_config_loop rest c
  end.

(** [lines] are the lines the iteration over the open file yields. *)
Definition load_config (lines : list string) : result config :=
  load_config_loop lines [].

(** ** [print_banner] *)

(** The text is read character by character; what is printed is given as
    the bytes of its UTF-8 encoding, the block character being three bytes. *)
Module Banner.
Local Open Scope string_scope.

Definition esc : string := String (ascii_of_nat 27) EmptyString.

(** [letters.get(char)] *)
Definition letters (char : ascii) : option (list string) :=
  if Ascii.eqb char "O" then Some [" ███ "; "█   █"; "█   █"; "█   █"; " ███ "]
  else if Ascii.eqb char "P" then Some ["████ "; "█   █"; "████ "; "█    "; "█    "]
  else if Ascii.eqb char "E" then Some ["████"; "█   "; "███ "; "█   "; "████"]
  else if Ascii.eqb char "N" then Some ["█   █"; "██  █"; "█ █ █"; "█  ██"; "█   █"]
  else if Ascii.eqb char "G" then Some [" ███ "; "█    "; "█  ██"; "█   █"; " ███ "]
  else if Ascii.eqb char "R" then Some ["████ "; "█   █"; "████ "; "█  █ "; "█   █"]
  else if Ascii.eqb char "A" then Some [" ███ "; "█   █"; "█████"; "█   █"; "█   █"]
  else if Ascii.eqb char "H" then Some ["█   █"; "█   █"; "█████"; "█   █"; "█   █"]
  else None.

Definition colors : list string :=
  [ esc ++ "[38;5;51m";
    esc ++ "[38;5;45m";
    esc ++ "[38;5;39m";
    esc ++ "[38;5;33m";
    esc ++ "[38;5;27m" ].

Definition reset : string := esc ++ "[0m".

(** [for i, line in enumerate(glyph): output[i] += colors[i] + line + reset + "   "] *)
Fixpoint add_letter (glyph colors output : list string) : list string :=
  match glyph, colors, output with
  | line :: glyph', color :: colors', row :: output' =>
      (row ++ color ++ line ++ reset ++ "   ") :: add_letter glyph' colors' output'
  | _, _, _ => output
  end.

(** [for i in range(n): output[i] += suffix] *)
Fixpoint add_to_rows (n : nat) (suffix : string) (output : list string) : list string :=
  match n, output with
  | S n', row :: output' => (row ++ suffix) :: add_to_rows n' suffix output'
  | _, _ => output
  end.

(** The loop over the characters of the text. *)
Fixpoint banner_loop (text : string) (output : list string) : list string :=
  match text with
  | EmptyString => output
  | String char text' =>
      match letters char with
      | Some glyph => banner_loop text' (add_letter glyph colors output)
      | None =>
          if Ascii.eqb char " " then banner_loop text' (add_to_rows 5 "  " output)
          else banner_loop text' output
      end
  end.

Definition empty_rows : list string :=
  [EmptyString; EmptyString; EmptyString; EmptyString; EmptyString].

End Banner.

(** What [print_banner] writes to the standard output, the line feed of
    [print] included. *)
Definition print_banner (text : string) : string :=
  (MoveText.nl ++ String.concat MoveText.nl (Banner.banner_loop text Banner.empty_rows) ++
   MoveText.nl ++ MoveText.nl ++ MoveText.nl)%string.

(** ** The earlier script, [read_h5 copy 2.py] *)

(** Its functions are those above, except two: [load_h5_model] has no
    second loader, and [main] generates the module text before it touches
    the file system. *)
Module Copy2.

(** [keras] is the outcome of [tf.keras.models.load_model]; its exception
    is not caught. *)
Definition load_h5_model (keras : result Keras.model) : result (list Weights.layer) :=
  model <- keras ;;
  Return (load_keras_layers model []).

(** [main] from the loading of the model to the writing of the two files. *)
Definition main_generate (keras : result Keras.model) (scale : N) (c : config) : io unit :=
  weights <~ pure (load_h5_model keras) ;;
  converted_weights <~ pure (convert_weights_to_fixed weights scale) ;;
  move_code <~ pure (generate_move_code converted_weights scale) ;;
  _ <~ perform (Makedirs "./with_git_dependencies/sources") ;;
  move_toml <~ pure (generate_move_toml c) ;;
  _ <~ perform (WriteFile "./with_git_dependencies/Move.toml" move_toml) ;;
  perform (WriteFile "./with_git_dependencies/sources/model.move" move_code).

End Copy2.

(** * Further definitions for the statements *)

(** [f[layer_name]['dense'][what][()]] *)
Definition read_dense (f : H5.file) (layer_name what : string) : result ndarray :=
  g <- H5.lookup f layer_name ;;
  d <- H5.getitem g "dense"%string ;;
  n <- H5.getitem d what ;;
  H5.read n.

(** The record stores the shape of each of its arrays. *)
Definition stores_shapes (l : Weights.layer) : Prop :=
  Weights.shape (Weights.kernel l) = shape_list (Weights.data (Weights.kernel l)) /\
  Weights.shape (Weights.bias l) = shape_list (Weights.data (Weights.bias l)).

(** The length of the first kernel shape that has not two components. *)
Fixpoint first_bad_shape (ws : list Fixed.layer) : option nat :=
  match ws with
  | [] => None
  | q :: rest =>
      if Nat.eqb (List.length (Fixed.shape (Fixed.kernel q))) 2 then first_bad_shape rest
      else Some (List.length (Fixed.shape (Fixed.kernel q)))
  end.

(** The files an effect log has written, in order. *)
Fixpoint files_written (log : list effect) : list string :=
  match log with
  | [] => []
  | WriteFile path _ :: rest => path :: files_written rest
  | Makedirs _ :: rest => files_written rest
  end.

(** The lines of a configuration file that assign: not blank, not a
    comment, with an equals sign. *)
Definition assigns (line : string) : bool :=
  let line := PyStr.strip line in
  PyStr.nonempty line && negb (PyStr.startswith line "#") && contains "=" line.

(** The number of occurrences of a character. *)
Fixpoint count_char (c : ascii) (s : string) : nat :=
  match s with
  | EmptyString => 0%nat
  | String d s' => ((if Ascii.eqb d c then 1 else 0) + count_char c s')%nat
  end.

(** The characters of a string that pass a test. *)
Fixpoint filter_string (p : ascii -> bool) (s : string) : string :=
  match s with
  | EmptyString => EmptyString
  | String c s' => if p c then String c (filter_string p s') else filter_string p s'
  end.

(** The characters the banner draws: the eight letters and the space. *)
Definition drawn (c : ascii) : bool :=
  match Banner.letters c with
  | Some _ => true
  | None => Ascii.eqb c " "
  end.

(** One more than the number of equals signs of the first assigning line
    that has not exactly one. *)
Fixpoint first_bad_line (lines : list string) : option nat :=
  match lines with
  | [] => None
  | line :: rest =>
      if assigns line && negb (Nat.eqb (count_char "=" (PyStr.strip line)) 1)
      then Some (S (count_char "=" (PyStr.strip line)))
      else first_bad_line rest
  end.

(** A string that does not start with a character of the set, and one that
    stripping leaves as it is. *)
Definition head_ok (p : ascii -> bool) (s : string) : Prop :=
  match s with
  | EmptyString => True
  | String c _ => p c = false
  end.

Definition stripped (p : ascii -> bool) (s : string) : Prop := PyStr.strip_by p s = s.

(** The line [key = 'value';] of a configuration file. *)
Definition config_line (key value : string) : string :=
  (key ++ " = '" ++ value ++ "';")%string.

(** A dictionary of two keys. *)
Definition two_keys : config := [("A"%string, "1"%string); ("B"%string, "2"%string)].

(** All the characters of [a] are in the set. *)
Fixpoint all_in (p : ascii -> bool) (a : string) : Prop :=
  match a with
  | EmptyString => True
  | String c a' => p c = true /\ all_in p a'
  end.

(** The keys of a dictionary are stripped of white space and its values of
    the quote characters. *)
Definition clean_item (kv : string * string) : Prop :=
  stripped PyStr.isspace (fst kv) /\
  stripped (fun c => PyStr.mem c quote_chars) (snd kv).

(** The first lines of a configuration file. *)
Definition sample_lines : list string := ["# network"%string; "SCALE = 2"%string].

(** A group of the file is read as a layer when its name has [dense] in it
    and both its arrays are where the fallback looks for them. *)
Definition readable (f : H5.file) (layer_name : string) : bool :=
  negb (contains "dense" layer_name) ||
  match read_dense f layer_name "kernel:0", read_dense f layer_name "bias:0" with
  | Return _, Return _ => true
  | _, _ => false
  end.

(** The record the fallback builds for a name, when both arrays are read. *)
Definition h5_record (f : H5.file) (layer_name : string) : option Weights.layer :=
  match read_dense f layer_name "kernel:0", read_dense f layer_name "bias:0" with
  | Return weights, Return bias => Some (dense_layer layer_name weights bias)
  | _, _ => None
  end.

(** A file as Keras writes it, with no group named after a dense layer at
    the top, and one with two such groups, the second without a bias. *)
Definition keras_file : H5.file :=
  [ ("model_weights"%string, H5.Group []); ("optimizer_weights"%string, H5.Group []) ].

Definition dense_group (arrays : list (string * H5.node)) : H5.node :=
  H5.Group [ ("dense"%string, H5.Group arrays) ].

Definition flat_file : H5.file :=
  [ ("dense_1"%string,
     dense_group [ ("kernel:0"%string, H5.Dataset (array2 1 [[Sample.one]]));
                   ("bias:0"%string, H5.Dataset (array1 [Sample.half])) ]);
    ("dropout"%string, H5.Group []);
    ("dense_2"%string,
     dense_group [ ("kernel:0"%string, H5.Dataset (array2 1 [[Sample.half]])) ]) ].

(** The text generated for layers with kernel shapes of two components. *)
Definition module_text (ws : list Fixed.layer) : string :=
  (MoveText.header ++
   join (map declaration_of ws) ++
   join (map weight_block_of ws) ++
   MoveText.footer)%string.

(** The paths of the two files. *)
Definition toml_path : string := "./with_git_dependencies/Move.toml".
Definition move_path : string := "./with_git_dependencies/sources/model.move".

(** A quantized layer with a kernel shape of four components, as a
    convolution has, and a configuration that names the network. *)
Definition conv_quantized : Fixed.layer :=
  {| Fixed.layerName := "conv";
     Fixed.kernel := {| Fixed.magnitude := [1]; Fixed.sign := [0];
                        Fixed.shape := [1; 1; 1; 1] |};
     Fixed.bias := {| Fixed.magnitude := [1]; Fixed.sign := [0]; Fixed.shape := [1] |};
     Fixed.scale := 0 |}.

Definition testnet_config : config := [("NETWORK"%string, "testnet"%string)].

(** The directory both scripts create. *)
Definition sources_dir : string := "./with_git_dependencies/sources".

(** Every element of every layer has an encoding at the scale. *)
Definition encodable (weights : list Weights.layer) (scale : N) : Prop :=
  forall layer x, In layer weights -> In x (elements layer) ->
                  exists r, float_to_fixed x scale = Return r.

(** The kernel of a Keras layer, if the layer is retained, has two axes. *)
Definition matrix_kernel (l : Keras.layer) : Prop :=
  retained l = true ->
  List.length (nd_shape (nth 0 (Keras.weights l) no_array)) = 2%nat.

(** [-x] *)
Definition float_neg (x : PyFloat.float) : PyFloat.float := SFopp x.

(** The signs of an entry are bits and its magnitudes lie in the range of
    the doubles. *)
Definition in_range (e : Fixed.entry) : Prop :=
  Forall (fun s => s = 0 \/ s = 1) (Fixed.sign e) /\
  Forall (fun m => 0 <= m < 2 ^ 1024) (Fixed.magnitude e).

(** A configuration that sets the scale, and one more line for it. *)
Definition scale_config : config := [("SCALE"%string, "2"%string)].
Definition network_line : string := "NETWORK = testnet".
Definition network_key : string := "NETWORK ".
Definition network_value : string := " testnet".

(** The integers the generator converts with [str]: the kernel shape of a
    layer in both loops, and the magnitudes and signs of its kernel and of
    its bias in the second. *)
Definition printed (l : Fixed.layer) : list Z :=
  Fixed.shape (Fixed.kernel l) ++
  Fixed.magnitude (Fixed.kernel l) ++ Fixed.sign (Fixed.kernel l) ++
  Fixed.magnitude (Fixed.bias l) ++ Fixed.sign (Fixed.bias l).

(** CPython converts an [int] of more than 4300 digits to no text, the
    default of [sys.int_max_str_digits]: [str] raises [ValueError] there.
    [str] above is the conversion within the limit, and a list of layers is
    printable when every integer the generator converts is within it. *)
Definition max_str_digits : Z := 4300.

Definition within_digits (n : Z) : bool := Z.abs n <? 10 ^ max_str_digits.

Definition printable (ws : list Fixed.layer) : bool :=
  forallb (fun l => forallb within_digits (printed l)) ws.

(** * Properties *)

(** ** Floats *)

Section FloatFacts.

Lemma binary_round_aux_sign (sx : bool) (mx ex : Z) (lx : location) :
  let r := binary_round_aux PyFloat.prec PyFloat.emax sx mx ex lx in
  r = S754_zero sx \/ (exists m e, r = S754_finite sx m e) \/
  r = S754_infinity sx \/ r = S754_nan.
Proof.
  unfold binary_round_aux.
  destruct (shr_fexp _ _ mx ex lx) as [mrs' e'].
  destruct (shr_fexp _ _ _ e' loc_Exact) as [mrs'' e''].
  destruct (shr_m mrs'') as [|m|m]; cbn zeta.
  - now left.
  - destruct (e'' <=? _); [right; left; eauto | now right; right; left].
  - now right; right; right.
Qed.

Lemma round_half_even_nonneg (m e : Z) :
  0 <= m -> 0 <= PyFloat.round_half_even m e.
Proof.
  intros Hm. unfold PyFloat.round_half_even.
  destruct (0 <=? e) eqn:He.
  - apply Z.leb_le in He. apply Z.mul_nonneg_nonneg; [assumption|].
    apply Z.pow_nonneg; lia.
  - apply Z.leb_gt in He.
    assert (Hd : 0 < 2 ^ (- e)) by (apply Z.pow_pos_nonneg; lia).
    assert (Hq : 0 <= m / 2 ^ (- e)) by (apply Z.div_pos; assumption).
    cbv zeta.
    destruct (2 * (m mod 2 ^ (- e)) ?= 2 ^ (- e)); [|lia|lia].
    destruct (Z.even _); lia.
Qed.

Lemma nearest_nonneg (p : PyFloat.float) : 0 <= nearest p.
Proof.
  destruct p; simpl; try lia.
  apply round_half_even_nonneg; lia.
Qed.

(** Every power of ten up to [10 ** 308] has a finite positive double;
    checked one exponent at a time. *)
Lemma pow10_float_finite (scale : N) :
  (scale <= 308)%N -> pos_finite (pow10_float scale) = true.
Proof.
  intros Hs.
  assert (H : forallb (fun n => pos_finite (pow10_float (N.of_nat n)))
                      (seq 0 309) = true) by (vm_compute; reflexivity).
  rewrite forallb_forall in H.
  specialize (H (N.to_nat scale)). rewrite N2Nat.id in H.
  apply H. apply in_seq. lia.
Qed.

Lemma of_int_pow10 (scale : N) :
  (scale <= 308)%N ->
  PyFloat.of_int (10 ^ Z.of_N scale) = Return (pow10_float scale).
Proof.
  intros Hs. apply pow10_float_finite in Hs.
  unfold PyFloat.of_int. fold (pow10_float scale).
  destruct (pow10_float scale) as [| | |[|] m e]; try discriminate; reflexivity.
Qed.

(** A finite product of [abs(x)] and a positive double is not negative. *)
Lemma mul_abs_pos_sign (x f : PyFloat.float) :
  pos_finite f = true ->
  match PyFloat.mul (PyFloat.abs x) f with
  | S754_finite s _ _ => s = false
  | _ => True
  end.
Proof.
  destruct f as [| | |[|] mf ef]; try discriminate. intros _.
  destruct x as [sx|sx| |sx mx ex];
    unfold PyFloat.mul, PyFloat.abs, SFabs, SFmul; trivial.
  destruct (binary_round_aux_sign (xorb false false) (Z.pos (mx * mf)) (ex + ef) loc_Exact)
    as [H|[(m & e & H)|[H|H]]]; rewrite H; trivial.
Qed.

(** The codec whenever [10 ** scale] converts. *)
Lemma float_to_fixed_scaled (x : PyFloat.float) (scale : N) :
  (scale <= 308)%N ->
  float_to_fixed x scale =
    abs_val <- PyFloat.round (scaled x scale) ;; Return (sign_bit x, abs_val).
Proof.
  intros Hs. unfold float_to_fixed. rewrite (of_int_pow10 scale Hs). reflexivity.
Qed.

Lemma round_scaled_finite (x : PyFloat.float) (scale : N) :
  (scale <= 308)%N ->
  PyFloat.is_finite (scaled x scale) = true ->
  PyFloat.round (scaled x scale) = Return (nearest (scaled x scale)).
Proof.
  intros Hs Hfin.
  pose proof (mul_abs_pos_sign x (pow10_float scale) (pow10_float_finite scale Hs)) as Hsign.
  unfold scaled in *.
  destruct (PyFloat.mul (PyFloat.abs x) (pow10_float scale)) as [s|s| |s m e];
    try discriminate; simpl; [reflexivity|].
  subst s. reflexivity.
Qed.

Lemma float_to_fixed_finite (x : PyFloat.float) (scale : N) :
  (scale <= 308)%N ->
  PyFloat.is_finite (scaled x scale) = true ->
  float_to_fixed x scale = Return (sign_bit x, nearest (scaled x scale)).
Proof.
  intros Hs Hfin.
  rewrite (float_to_fixed_scaled x scale Hs), (round_scaled_finite x scale Hs Hfin).
  reflexivity.
Qed.

(** The sign bit is set for the negative numbers and for nothing else:
    not for a zero of either sign, not for NaN. *)
Lemma sign_bit_cases (x : PyFloat.float) :
  sign_bit x =
    match x with
    | S754_finite true _ _ | S754_infinity true => 1
    | _ => 0
    end.
Proof. destruct x as [[|]|[|]| |[|] m e]; reflexivity. Qed.

(** The only exceptions of the codec. *)
Lemma float_to_fixed_errors (x : PyFloat.float) (scale : N) (e : exn) :
  float_to_fixed x scale = Raise e ->
  e = OverflowError_int_too_large \/ e = OverflowError_float_infinity \/
  e = ValueError_float_nan.
Proof.
  unfold float_to_fixed, PyFloat.of_int.
  destruct (binary_normalize _ _ _ _ _) as [s|s| |s m ex]; simpl;
    try (intros [= <-]; now left);
    (destruct (PyFloat.mul _ _); simpl; intros [= <-]; auto).
Qed.

(** *** Integers beyond the doubles

    The conversion shifts the integer down to 53 bits and compares the
    exponent with the largest one; the shift is a division by a power of
    two, and an integer of more than 1024 bits ends above the largest
    exponent. *)

Lemma shr_m_of_loc (m : Z) (l : location) : shr_m (shr_record_of_loc m l) = m.
Proof. destruct l as [|[| |]]; reflexivity. Qed.

Lemma shr_m_shr_1 (mrs : shr_record) :
  0 <= shr_m mrs -> shr_m (shr_1 mrs) = Z.shiftr (shr_m mrs) 1.
Proof.
  destruct mrs as [m r s]. simpl. intros Hm.
  destruct m as [|[p|p|]|p]; try reflexivity. lia.
Qed.

Lemma shr_m_iter (q : positive) (mrs : shr_record) :
  0 <= shr_m mrs ->
  shr_m (iter_pos shr_1 q mrs) = Z.shiftr (shr_m mrs) (Z.pos q).
Proof.
  revert mrs. induction q as [q IH|q IH|]; intros mrs Hm; simpl iter_pos.
  - assert (H1 : 0 <= shr_m (shr_1 mrs))
      by (rewrite shr_m_shr_1 by assumption; now apply Z.shiftr_nonneg).
    assert (H2 : 0 <= shr_m (iter_pos shr_1 q (shr_1 mrs)))
      by (rewrite IH by assumption; now apply Z.shiftr_nonneg).
    rewrite IH, IH, shr_m_shr_1 by assumption.
    rewrite !Z.shiftr_shiftr by lia. f_equal. lia.
  - assert (H2 : 0 <= shr_m (iter_pos shr_1 q mrs))
      by (rewrite IH by assumption; now apply Z.shiftr_nonneg).
    rewrite IH, IH by assumption.
    rewrite Z.shiftr_shiftr by lia. f_equal. lia.
  - now apply shr_m_shr_1.
Qed.

Lemma digits2_pos_bound (p : positive) :
  2 ^ Z.pos (digits2_pos p) <= 2 * Z.pos p < 2 * 2 ^ Z.pos (digits2_pos p).
Proof.
  induction p as [p IH|p IH|]; simpl digits2_pos;
    rewrite ?Pos2Z.inj_succ, ?Z.pow_succ_r by lia; lia.
Qed.

Lemma shr_fexp_pos (p : positive) (e : Z) (l : location) :
  -1074 <= e ->
  let '(mrs, e') := shr_fexp PyFloat.prec PyFloat.emax (Z.pos p) e l in
  0 < shr_m mrs /\ e <= e' /\
  fexp PyFloat.prec PyFloat.emax (Z.pos (digits2_pos p) + e) <= e'.
Proof.
  intros He. unfold shr_fexp, shr. cbn [Zdigits2].
  set (D := Z.pos (digits2_pos p)).
  destruct (fexp PyFloat.prec PyFloat.emax (D + e) - e) as [|q|q] eqn:Hn;
    rewrite ?shr_m_of_loc; try (repeat split; lia).
  assert (Hq : Z.pos q = D - 53).
  { unfold fexp, emin, PyFloat.prec, PyFloat.emax in Hn. lia. }
  rewrite shr_m_iter by (rewrite shr_m_of_loc; lia).
  rewrite shr_m_of_loc. repeat split; try lia.
  rewrite Z.shiftr_div_pow2 by lia.
  apply Z.div_str_pos. split; [apply Z.pow_pos_nonneg; lia|].
  pose proof (digits2_pos_bound p) as [Hlo _]. fold D in Hlo.
  assert (2 * 2 ^ Z.pos q <= 2 ^ D).
  { rewrite <- Z.pow_succ_r by lia. apply Z.pow_le_mono_r; lia. }
  lia.
Qed.

Lemma round_nearest_even_pos (m : Z) (l : location) :
  0 < m -> 0 < round_nearest_even m l.
Proof.
  intros Hm. destruct l as [|[| |]]; simpl; try lia.
  destruct (Z.even m); lia.
Qed.

Lemma binary_round_aux_overflow (sx : bool) (p : positive) (ex : Z) (lx : location) :
  -1074 <= ex ->
  971 < fexp PyFloat.prec PyFloat.emax (Z.pos (digits2_pos p) + ex) ->
  binary_round_aux PyFloat.prec PyFloat.emax sx (Z.pos p) ex lx = S754_infinity sx.
Proof.
  intros He Hbig. unfold binary_round_aux.
  pose proof (shr_fexp_pos p ex lx He) as H1.
  destruct (shr_fexp PyFloat.prec PyFloat.emax (Z.pos p) ex lx) as [mrs' e'].
  destruct H1 as (Hm' & He' & Hf').
  pose proof (round_nearest_even_pos (shr_m mrs') (loc_of_shr_record mrs') Hm') as Hm1.
  destruct (round_nearest_even (shr_m mrs') (loc_of_shr_record mrs')) as [|p1|p1]; try lia.
  pose proof (shr_fexp_pos p1 e' loc_Exact ltac:(lia)) as H2.
  destruct (shr_fexp PyFloat.prec PyFloat.emax (Z.pos p1) e' loc_Exact) as [mrs'' e''].
  destruct H2 as (Hm'' & He'' & _).
  destruct (shr_m mrs'') as [|m''|m'']; try lia.
  replace (e'' <=? PyFloat.emax - PyFloat.prec) with false; [reflexivity|].
  symmetry. apply Z.leb_gt. unfold PyFloat.emax, PyFloat.prec. lia.
Qed.

Lemma of_int_overflow (n : Z) :
  2 ^ 1024 <= n -> PyFloat.of_int n = Raise OverflowError_int_too_large.
Proof.
  intros Hn. assert (H0 : 0 < 2 ^ 1024) by (apply Z.pow_pos_nonneg; lia).
  destruct n as [|p|p]; try lia.
  assert (HD : 1024 < Z.pos (digits2_pos p)).
  { pose proof (digits2_pos_bound p) as [_ Hhi].
    apply (Z.pow_lt_mono_r_iff 2); lia. }
  unfold PyFloat.of_int, binary_normalize, binary_round, shl_align.
  assert (Hf : fexp PyFloat.prec PyFloat.emax (Z.pos (digits2_pos p) + 0)
               = Z.pos (digits2_pos p) - 53).
  { unfold fexp, emin, PyFloat.prec, PyFloat.emax. lia. }
  rewrite Hf.
  destruct (Z.pos (digits2_pos p) - 53 - 0) as [|q|q] eqn:Hq; try lia;
    rewrite binary_round_aux_overflow; trivial; lia.
Qed.

(** From scale 309 on the power of ten has no double and nothing encodes. *)
Lemma float_to_fixed_scale_large (x : PyFloat.float) (scale : N) :
  (308 < scale)%N ->
  float_to_fixed x scale = Raise OverflowError_int_too_large.
Proof.
  intros Hs. unfold float_to_fixed. rewrite of_int_overflow; [reflexivity|].
  transitivity (10 ^ 309); [vm_compute; discriminate|].
  apply Z.pow_le_mono_r; lia.
Qed.

(** A NaN or an infinity never encodes. *)
Lemma float_to_fixed_nonfinite (x : PyFloat.float) (scale : N) :
  PyFloat.is_finite x = false ->
  float_to_fixed x scale = Raise (nonfinite_error x scale).
Proof.
  intros Hx. unfold nonfinite_error.
  destruct (scale <=? 308)%N eqn:Hs.
  - apply N.leb_le in Hs. rewrite (float_to_fixed_scaled x scale Hs).
    pose proof (pow10_float_finite scale Hs) as Hf. unfold scaled.
    destruct (pow10_float scale) as [| | |[|] mf ef]; try discriminate.
    destruct x as [sx|sx| |sx mx ex]; try discriminate; reflexivity.
  - apply N.leb_gt in Hs. now apply float_to_fixed_scale_large.
Qed.

End FloatFacts.

(** ** Loops that stop at the first exception *)

Section MapM.
Context {A B : Type} (f : A -> result B).

Lemma mapM_Forall2 (xs : list A) (ys : list B) :
  mapM f xs = Return ys -> Forall2 (fun x y => f x = Return y) xs ys.
Proof.
  revert ys. induction xs as [|x xs IH]; simpl; intros ys H.
  - injection H as <-. constructor.
  - destruct (f x) as [y|e] eqn:Hx; simpl in H; [|discriminate].
    destruct (mapM f xs) as [ys'|e]; simpl in H; [|discriminate].
    injection H as <-. constructor; auto.
Qed.

Lemma mapM_length (xs : list A) (ys : list B) :
  mapM f xs = Return ys -> List.length ys = List.length xs.
Proof.
  intros H. apply mapM_Forall2 in H. symmetry. eapply Forall2_length, H.
Qed.

Lemma mapM_first_error (xs : list A) (i : nat) :
  match first_error f xs i with
  | Some (_, e) => mapM f xs = Raise e
  | None => exists ys, mapM f xs = Return ys
  end.
Proof.
  revert i. induction xs as [|x xs IH]; simpl; intros i; [eauto|].
  destruct (f x) as [y|e]; simpl; [|reflexivity].
  specialize (IH (S i)). destruct (first_error f xs (S i)) as [[j e]|].
  - now rewrite IH.
  - destruct IH as [ys ->]. simpl. eauto.
Qed.

Lemma first_error_In (xs : list A) (i : nat) (x : A) (e : exn) :
  In x xs -> f x = Raise e -> exists j e', first_error f xs i = Some (j, e').
Proof.
  revert i. induction xs as [|x' xs IH]; simpl; intros i Hin Hx; [contradiction|].
  destruct Hin as [->|Hin].
  - rewrite Hx. eauto.
  - destruct (f x'); eauto.
Qed.

(** The exception found is the one [f] raises on the element found. *)
Lemma first_error_sound (xs : list A) (i j : nat) (e : exn) :
  first_error f xs i = Some (j, e) ->
  exists x, nth_error xs (j - i) = Some x /\ f x = Raise e /\ (i <= j)%nat.
Proof.
  revert i. induction xs as [|x xs IH]; simpl; intros i H; [discriminate|].
  destruct (f x) as [y|e'] eqn:Hx.
  - destruct (IH _ H) as (x' & Hnth & Hx' & Hle).
    exists x'. replace (j - i)%nat with (S (j - S i)) by lia. simpl. auto with arith.
  - injection H as <- <-. exists x. rewrite Nat.sub_diag. auto.
Qed.

End MapM.

Section QuantizerLoops.

Lemma fixed_loop_mapM (vals : list PyFloat.float) (scale : N) (signs mags : list Z) :
  fixed_loop vals scale signs mags =
    ps <- mapM (fun v => float_to_fixed v scale) vals ;;
    Return (signs ++ map fst ps, mags ++ map snd ps).
Proof.
  revert signs mags. induction vals as [|v vals IH]; simpl; intros signs mags.
  - now rewrite !app_nil_r.
  - destruct (float_to_fixed v scale) as [[s m]|e]; simpl; [|reflexivity].
    rewrite IH. destruct (mapM _ vals) as [ps|e]; simpl; [|reflexivity].
    now rewrite <- !app_assoc.
Qed.

Lemma convert_loop_mapM (weights : list Weights.layer) (scale : N)
    (converted : list Fixed.layer) :
  convert_loop weights scale converted =
    qs <- mapM (fun layer => convert_layer layer scale) weights ;;
    Return (converted ++ qs).
Proof.
  revert converted. induction weights as [|l weights IH]; simpl; intros converted.
  - now rewrite app_nil_r.
  - destruct (convert_layer l scale) as [q|e]; simpl; [|reflexivity].
    rewrite IH. destruct (mapM _ weights) as [qs|e]; simpl; [|reflexivity].
    now rewrite <- app_assoc.
Qed.

Lemma convert_weights_to_fixed_mapM (weights : list Weights.layer) (scale : N) :
  convert_weights_to_fixed weights scale =
    mapM (fun layer => convert_layer layer scale) weights.
Proof.
  unfold convert_weights_to_fixed. rewrite convert_loop_mapM.
  destruct (mapM _ weights); reflexivity.
Qed.

End QuantizerLoops.

(** ** Row-major order *)

Section RowMajor.
Local Open Scope nat_scope.

Lemma flat_map_blocks_length {A : Type} (g : nat -> list A) (L : nat) (l : list nat) :
  (forall i, List.length (g i) = L) ->
  List.length (flat_map g l) = List.length l * L.
Proof.
  intros Hg. induction l as [|i l IH]; simpl; [reflexivity|].
  now rewrite length_app, Hg, IH.
Qed.

Lemma flat_map_blocks_nth {A : Type} (g : nat -> list A) (L : nat) :
  (forall i, List.length (g i) = L) ->
  forall n s i j, i < n -> j < L ->
  nth_error (flat_map g (seq s n)) (i * L + j) = nth_error (g (s + i)) j.
Proof.
  intros Hg. induction n as [|n IH]; intros s i j Hi Hj; [lia|].
  simpl. destruct i as [|i].
  - simpl. rewrite Nat.add_0_r. apply nth_error_app1. now rewrite Hg.
  - rewrite nth_error_app2 by (rewrite Hg; simpl; lia).
    rewrite Hg. replace (S i * L + j - L) with (i * L + j) by (simpl; lia).
    rewrite IH by lia. f_equal. f_equal. lia.
Qed.

Lemma indices_length (sh : list nat) : List.length (indices sh) = size sh.
Proof.
  induction sh as [|n sh IH]; simpl; [reflexivity|].
  rewrite (flat_map_blocks_length _ (size sh)).
  - now rewrite length_seq.
  - intros i. now rewrite length_map.
Qed.

(** The index [i] of the first axis selects the [i]-th block of
    [size sh] consecutive positions. *)
Lemma indices_nth (n : nat) (sh : list nat) (i k : nat) :
  i < n -> k < size sh ->
  nth_error (indices (n :: sh)) (i * size sh + k) =
    option_map (cons i) (nth_error (indices sh) k).
Proof.
  intros Hi Hk. simpl.
  rewrite (flat_map_blocks_nth _ (size sh)); trivial.
  - simpl. apply nth_error_map.
  - intros j. now rewrite length_map, indices_length.
Qed.

Lemma indices_rank1 (n j : nat) :
  j < n -> nth_error (indices [n]) j = Some [j].
Proof.
  intros Hj.
  replace j with (j * size [] + 0) at 1 by (simpl; lia).
  rewrite indices_nth; simpl; trivial; lia.
Qed.

Lemma indices_rank2 (rows cols i j : nat) :
  i < rows -> j < cols ->
  nth_error (indices [rows; cols]) (i * cols + j) = Some [i; j].
Proof.
  intros Hi Hj.
  replace (i * cols + j) with (i * size [cols] + j) by (simpl; lia).
  rewrite indices_nth; trivial; [|simpl; lia].
  now rewrite indices_rank1.
Qed.

Lemma flatten_length (a : ndarray) :
  List.length (flatten a) = size (nd_shape a).
Proof. unfold flatten. now rewrite length_map, indices_length. Qed.

Lemma flatten_rank1 (a : ndarray) (n j : nat) :
  nd_shape a = [n] -> j < n ->
  nth_error (flatten a) j = Some (nd_item a [j]).
Proof.
  intros Hsh Hj. unfold flatten.
  now rewrite Hsh, nth_error_map, indices_rank1.
Qed.

Lemma flatten_rank2 (a : ndarray) (rows cols i j : nat) :
  nd_shape a = [rows; cols] -> i < rows -> j < cols ->
  nth_error (flatten a) (i * cols + j) = Some (nd_item a [i; j]).
Proof.
  intros Hsh Hi Hj. unfold flatten.
  now rewrite Hsh, nth_error_map, indices_rank2.
Qed.

End RowMajor.

(** ** The quantization pass, layer by layer *)

Section QuantizerFailures.

Variable scale : N.

Lemma fixed_loop_first_error (vals : list PyFloat.float) :
  match first_error (codec scale) vals 0 with
  | Some (_, e) => fixed_loop vals scale [] [] = Raise e
  | None => exists ps, mapM (codec scale) vals = Return ps /\
                       fixed_loop vals scale [] [] = Return (map fst ps, map snd ps)
  end.
Proof.
  rewrite fixed_loop_mapM. fold (codec scale).
  pose proof (mapM_first_error (codec scale) vals 0) as H.
  destruct (first_error (codec scale) vals 0) as [[i e]|].
  - now rewrite H.
  - destruct H as [ps H]. rewrite H. simpl. eauto.
Qed.

Lemma convert_layer_failure (layer : Weights.layer) :
  match layer_failure layer scale with
  | Some (_, _, e) => convert_layer layer scale = Raise e
  | None => exists q, convert_layer layer scale = Return q
  end.
Proof.
  unfold layer_failure, convert_layer. fold (codec scale).
  pose proof (fixed_loop_first_error (flatten (Weights.data (Weights.kernel layer)))) as Hk.
  pose proof (fixed_loop_first_error (flatten (Weights.data (Weights.bias layer)))) as Hb.
  destruct (first_error (codec scale) (flatten (Weights.data (Weights.kernel layer))) 0) as [[i e]|].
  - now rewrite Hk.
  - destruct Hk as (ps & _ & ->). simpl.
    destruct (first_error (codec scale) (flatten (Weights.data (Weights.bias layer))) 0) as [[i e]|].
    + now rewrite Hb.
    + destruct Hb as (ps' & _ & ->). simpl. eauto.
Qed.

Lemma convert_first_failure (weights : list Weights.layer) :
  match first_failure weights scale with
  | Some (_, _, _, e) => convert_weights_to_fixed weights scale = Raise e
  | None => exists converted, convert_weights_to_fixed weights scale = Return converted
  end.
Proof.
  rewrite convert_weights_to_fixed_mapM.
  induction weights as [|layer rest IH]; simpl; [eauto|].
  pose proof (convert_layer_failure layer) as Hl.
  destruct (layer_failure layer scale) as [[[role i] e]|].
  - now rewrite Hl.
  - destruct Hl as [q ->]. simpl.
    destruct (first_failure rest scale) as [[[[name role] i] e]|].
    + now rewrite IH.
    + destruct IH as [qs ->]. simpl. eauto.
Qed.

(** A failure found in a layer is the codec's on an element of the layer. *)
Lemma layer_failure_sound (layer : Weights.layer) (role : tensor_role) (i : nat) (e : exn) :
  layer_failure layer scale = Some (role, i, e) ->
  exists x,
    nth_error (flatten (Weights.data (match role with
                                      | Kernel => Weights.kernel layer
                                      | Bias => Weights.bias layer
                                      end))) i = Some x /\
    float_to_fixed x scale = Raise e.
Proof.
  unfold layer_failure. fold (codec scale).
  destruct (first_error (codec scale) (flatten (Weights.data (Weights.kernel layer))) 0)
    as [[j e']|] eqn:Hk.
  - intros [= <- <- <-]. apply first_error_sound in Hk.
    destruct Hk as (x & Hn & Hx & _). rewrite Nat.sub_0_r in Hn. eauto.
  - destruct (first_error (codec scale) (flatten (Weights.data (Weights.bias layer))) 0)
      as [[j e']|] eqn:Hb; [|discriminate].
    intros [= <- <- <-]. apply first_error_sound in Hb.
    destruct Hb as (x & Hn & Hx & _). rewrite Nat.sub_0_r in Hn. eauto.
Qed.

Lemma first_failure_sound (weights : list Weights.layer)
    (name : string) (role : tensor_role) (i : nat) (e : exn) :
  first_failure weights scale = Some (name, role, i, e) ->
  exists layer x,
    In layer weights /\ Weights.layerName layer = name /\
    nth_error (flatten (Weights.data (match role with
                                      | Kernel => Weights.kernel layer
                                      | Bias => Weights.bias layer
                                      end))) i = Some x /\
    float_to_fixed x scale = Raise e.
Proof.
  induction weights as [|layer rest IH]; simpl; [discriminate|].
  destruct (layer_failure layer scale) as [[[role' i'] e']|] eqn:Hl.
  - intros [= <- <- <- <-]. apply layer_failure_sound in Hl.
    destruct Hl as (x & Hn & Hx). exists layer, x. auto.
  - intros H. destruct (IH H) as (l & x & Hin & Hname & Hn & Hx).
    exists l, x. auto.
Qed.

(** An element the (codec scale) raises on makes the search succeed. *)
Lemma layer_failure_complete (layer : Weights.layer) (x : PyFloat.float) (e : exn) :
  In x (elements layer) -> float_to_fixed x scale = Raise e ->
  layer_failure layer scale <> None.
Proof.
  unfold elements, layer_failure. fold (codec scale). intros Hin Hx.
  destruct (first_error (codec scale) (flatten (Weights.data (Weights.kernel layer))) 0)
    as [[j e']|] eqn:Hk; [discriminate|].
  apply in_app_or in Hin. destruct Hin as [Hin|Hin].
  - destruct (first_error_In (codec scale) _ 0 x e Hin Hx) as (j & e' & H). congruence.
  - destruct (first_error_In (codec scale) _ 0 x e Hin Hx) as (j & e' & ->). discriminate.
Qed.

Lemma first_failure_complete (weights : list Weights.layer) (layer : Weights.layer)
    (x : PyFloat.float) (e : exn) :
  In layer weights -> In x (elements layer) -> float_to_fixed x scale = Raise e ->
  first_failure weights scale <> None.
Proof.
  induction weights as [|l rest IH]; simpl; [contradiction|].
  intros [->|Hin] Hx He.
  - pose proof (layer_failure_complete layer x e Hx He) as H.
    destruct (layer_failure layer scale) as [[[role i] e']|]; [discriminate|contradiction].
  - destruct (layer_failure l scale) as [[[role i] e']|]; [discriminate|]. now apply IH.
Qed.

End QuantizerFailures.

(** ** The fixed-point codec *)

(** The sample doubles are doubles: mantissas and exponents in range. *)
Example samples_valid :
  forallb (valid_binary PyFloat.prec PyFloat.emax)
    [ Sample.one; Sample.half; Sample.minus_two; Sample.d_1_005; Sample.d_2_675;
      Sample.d_3_7; Sample.d_1e20; Sample.two_pow_64; Sample.two_pow_1023 ] = true.
Proof. reflexivity. Qed.

(** The third scenario of the specification: 3.7 at scale 0. *)
Example scenario_c : float_to_fixed Sample.d_3_7 0 = Return (0, 4).
Proof. reflexivity. Qed.

(** C1, as amended.  For every [x] and every scale from 0 to 308 such that
    the double product [abs(x) * 10 ** scale] is finite, the codec returns
    the sign bit [1 if x < 0 else 0] and, as magnitude, the integer nearest
    to that double product, ties to even; the magnitude is not negative and
    the bit is 1 exactly for the negative numbers. *)
Theorem float_to_fixed_finite_product (x : PyFloat.float) (scale : N) :
  (scale <= 308)%N ->
  PyFloat.is_finite (scaled x scale) = true ->
  float_to_fixed x scale = Return (sign_bit x, nearest (scaled x scale)) /\
  0 <= nearest (scaled x scale) /\
  sign_bit x = match x with
               | S754_finite true _ _ => 1
               | _ => 0
               end.
Proof.
  intros Hs Hfin. split; [|split].
  - now apply float_to_fixed_finite.
  - apply nearest_nonneg.
  - rewrite sign_bit_cases.
    destruct x as [s|[|]| |s m e]; try reflexivity.
    unfold scaled in Hfin.
    destruct (pow10_float scale) as [| | |sf mf ef]; discriminate.
Qed.

Lemma float_to_fixed_finite_product_witness :
  (2 <= 308)%N /\
  PyFloat.is_finite (scaled Sample.minus_two 2) = true /\
  float_to_fixed Sample.minus_two 2 = Return (1, 200) /\
  0 <= 200 /\
  sign_bit Sample.minus_two = 1.
Proof.
  split; [lia|]. split; [reflexivity|].
  apply (float_to_fixed_finite_product Sample.minus_two 2); [lia | reflexivity].
Defined.

(** C1 as stated fails.  The double nearest to 2.675 lies below it; its
    exact product with 100 lies below 267.5 and rounds to 267 under either rule,
    while the double product is 267.5 and the codec returns 268.  And
    [2 ** 1023] is finite but its product with 10 is not, and [10 ** 309]
    has no double: there the codec raises instead of returning. *)
Lemma float_to_fixed_exact_round_counterexample :
  PyFloat.is_finite Sample.d_2_675 = true /\
  float_to_fixed Sample.d_2_675 2 = Return (0, 268) /\
  exact_magnitude Sample.d_2_675 2 = 267 /\
  2 * (6023564501608038 * 10 ^ 2) < (2 * 267 + 1) * 2 ^ 51 /\
  PyFloat.is_finite Sample.two_pow_1023 = true /\
  float_to_fixed Sample.two_pow_1023 1 = Raise OverflowError_float_infinity /\
  PyFloat.is_finite Sample.one = true /\
  float_to_fixed Sample.one 309 = Raise OverflowError_int_too_large.
Proof. repeat split; vm_compute; reflexivity. Qed.

(** C4, as amended.  A zero of either sign encodes as sign 0 and
    magnitude 0 at every scale from 0 to 308, [-0.0] exactly as [0.0]:
    [-0.0 < 0] is false.  Beyond 308 the codec raises. *)
Theorem float_to_fixed_zero (s : bool) (scale : N) :
  float_to_fixed (S754_zero s) scale =
    if (scale <=? 308)%N then Return (0, 0) else Raise OverflowError_int_too_large.
Proof.
  destruct (scale <=? 308)%N eqn:Hs.
  - apply N.leb_le in Hs. rewrite (float_to_fixed_scaled _ _ Hs).
    pose proof (pow10_float_finite scale Hs) as Hf.
    unfold scaled. destruct (pow10_float scale) as [| | |[|] mf ef]; try discriminate.
    destruct s; reflexivity.
  - apply N.leb_gt in Hs. now apply float_to_fixed_scale_large.
Qed.

Lemma float_to_fixed_zero_witness :
  float_to_fixed PyFloat.neg_zero 2 = Return (0, 0) /\
  float_to_fixed PyFloat.pos_zero 2 = Return (0, 0).
Proof.
  split.
  - exact (float_to_fixed_zero true 2).
  - exact (float_to_fixed_zero false 2).
Defined.

(** C4 as stated fails: the sign of [-0.0] is 0, not 1; and at scale 309
    neither zero encodes. *)
Lemma float_to_fixed_neg_zero_counterexample :
  float_to_fixed PyFloat.neg_zero 0 = Return (0, 0) /\
  float_to_fixed PyFloat.neg_zero 0 <> Return (1, 0) /\
  float_to_fixed PyFloat.pos_zero 309 = Raise OverflowError_int_too_large.
Proof. split; [reflexivity | split; [discriminate | vm_compute; reflexivity]]. Qed.

(** C8, as amended.  The codec checks no width.  Its outcome depends on
    the double product alone: when the product is finite the integer
    nearest to it is returned, of whatever size, [2 ** 64] and more
    included; the codec raises only when the product is an infinity, and
    then [OverflowError], or a NaN, and then [ValueError], or when the
    scale is beyond 308, and then the [OverflowError] of the conversion of
    [10 ** scale]. *)
Theorem float_to_fixed_no_width_check (x : PyFloat.float) (scale : N) :
  match float_to_fixed x scale with
  | Return (s, m) =>
      (scale <= 308)%N /\ PyFloat.is_finite (scaled x scale) = true /\
      s = sign_bit x /\ m = nearest (scaled x scale)
  | Raise e =>
      ((308 < scale)%N /\ e = OverflowError_int_too_large) \/
      ((scale <= 308)%N /\
       match scaled x scale with
       | S754_infinity _ => e = OverflowError_float_infinity
       | S754_nan => e = ValueError_float_nan
       | _ => False
       end)
  end.
Proof.
  destruct (N.le_gt_cases scale 308) as [Hs|Hs].
  - destruct (PyFloat.is_finite (scaled x scale)) eqn:Hfin.
    + rewrite (float_to_fixed_finite x scale Hs Hfin). auto.
    + rewrite (float_to_fixed_scaled x scale Hs).
      destruct (scaled x scale) as [s|s| |s m e]; try discriminate; simpl; right; auto.
  - rewrite (float_to_fixed_scale_large x scale Hs). now left.
Qed.

Lemma float_to_fixed_no_width_check_witness :
  2 ^ 64 <= 100000000000000000000 /\
  float_to_fixed Sample.d_1e20 0 = Return (0, 100000000000000000000) /\
  PyFloat.is_finite (scaled Sample.d_1e20 0) = true.
Proof.
  split; [lia|]. split; [reflexivity|].
  pose proof (float_to_fixed_no_width_check Sample.d_1e20 0) as H.
  change (float_to_fixed Sample.d_1e20 0) with (Return (0, 100000000000000000000)) in H.
  exact (proj1 (proj2 H)).
Defined.

(** C8 as stated fails: [2.0 ** 64] at scale 0 encodes, with a magnitude
    that does not fit 64 bits. *)
Lemma float_to_fixed_wide_counterexample :
  float_to_fixed Sample.two_pow_64 0 = Return (0, 2 ^ 64) /\
  exact_magnitude Sample.two_pow_64 0 = 2 ^ 64.
Proof. split; vm_compute; reflexivity. Qed.

(** ** Failures of the pass and of the pipeline *)

Lemma main_generate_aborts (keras : option Keras.model) (h5 : option H5.file)
    (scale : N) (c : config) (weights : list Weights.layer) (e : exn) :
  load_h5_model keras h5 = Return weights ->
  convert_weights_to_fixed weights scale = Raise e ->
  main_generate keras h5 scale c = ([], Raise e).
Proof.
  intros Hload Hconv. unfold main_generate, pure, io_bind.
  rewrite Hload, Hconv. reflexivity.
Qed.

Lemma first_failure_codec_error (weights : list Weights.layer) (scale : N)
    (name : string) (role : tensor_role) (i : nat) (e : exn) :
  first_failure weights scale = Some (name, role, i, e) ->
  e = OverflowError_int_too_large \/ e = OverflowError_float_infinity \/
  e = ValueError_float_nan.
Proof.
  intros H. apply first_failure_sound in H.
  destruct H as (layer & x & _ & _ & _ & Hx).
  eapply float_to_fixed_errors, Hx.
Qed.

(** C5, as amended.  A NaN or an infinity makes the codec raise at every
    scale: [ValueError] or [OverflowError], not one kind of error.  When a
    loaded layer holds such a value the pass raises one of the codec's
    three exceptions, and the pipeline stops before it creates a directory
    or writes a file. *)
Theorem nonfinite_value_aborts (keras : option Keras.model) (h5 : option H5.file)
    (scale : N) (c : config) (weights : list Weights.layer)
    (layer : Weights.layer) (x : PyFloat.float) :
  load_h5_model keras h5 = Return weights ->
  In layer weights ->
  In x (elements layer) ->
  PyFloat.is_finite x = false ->
  float_to_fixed x scale = Raise (nonfinite_error x scale) /\
  exists e,
    (e = OverflowError_int_too_large \/ e = OverflowError_float_infinity \/
     e = ValueError_float_nan) /\
    convert_weights_to_fixed weights scale = Raise e /\
    quantize_and_generate weights scale = Raise e /\
    main_generate keras h5 scale c = ([], Raise e).
Proof.
  intros Hload Hl Hx Hnf.
  pose proof (float_to_fixed_nonfinite x scale Hnf) as He0.
  split; [assumption|].
  pose proof (first_failure_complete scale weights layer x _ Hl Hx He0) as Hsome.
  pose proof (convert_first_failure scale weights) as Hconv.
  destruct (first_failure weights scale) as [[[[name role] i] e]|] eqn:Hff;
    [|contradiction].
  exists e. split; [eapply first_failure_codec_error, Hff|].
  split; [assumption|]. split.
  - unfold quantize_and_generate. now rewrite Hconv.
  - now apply main_generate_aborts with weights.
Qed.

Lemma nonfinite_value_aborts_witness :
  float_to_fixed PyFloat.nan 2 = Raise ValueError_float_nan /\
  exists e,
    (e = OverflowError_int_too_large \/ e = OverflowError_float_infinity \/
     e = ValueError_float_nan) /\
    convert_weights_to_fixed [nan_layer] 2 = Raise e /\
    quantize_and_generate [nan_layer] 2 = Raise e /\
    main_generate (Some nan_model) None 2 [] = ([], Raise e).
Proof.
  apply (nonfinite_value_aborts (Some nan_model) None 2 [] [nan_layer] nan_layer PyFloat.nan).
  - reflexivity.
  - simpl. left. reflexivity.
  - vm_compute. right. right. left. reflexivity.
  - reflexivity.
Defined.

(** C5 as stated fails: NaN and infinity do not raise one and the same
    error, nor errors of one class. *)
Lemma float_to_fixed_nonfinite_counterexample :
  float_to_fixed PyFloat.nan 0 = Raise ValueError_float_nan /\
  float_to_fixed PyFloat.pos_inf 0 = Raise OverflowError_float_infinity /\
  exn_class ValueError_float_nan = ValueError /\
  exn_class OverflowError_float_infinity = OverflowError /\
  ValueError <> OverflowError.
Proof. repeat split; try reflexivity. discriminate. Qed.

(** C9, as amended.  When the codec raises on an element, the pass raises
    the exception of the first such element in the order of the pass:
    layers in order, the kernel before the bias, elements in flat order.
    The exception is the codec's own, unchanged, and no list of layers is
    returned. *)
Theorem convert_weights_to_fixed_aborts (weights : list Weights.layer) (scale : N)
    (layer : Weights.layer) (x : PyFloat.float) (e0 : exn) :
  In layer weights ->
  In x (elements layer) ->
  float_to_fixed x scale = Raise e0 ->
  exists name role i e,
    first_failure weights scale = Some (name, role, i, e) /\
    convert_weights_to_fixed weights scale = Raise e /\
    exists layer' x',
      In layer' weights /\ Weights.layerName layer' = name /\
      nth_error (flatten (Weights.data (match role with
                                        | Kernel => Weights.kernel layer'
                                        | Bias => Weights.bias layer'
                                        end))) i = Some x' /\
      float_to_fixed x' scale = Raise e.
Proof.
  intros Hl Hx He0.
  pose proof (first_failure_complete scale weights layer x e0 Hl Hx He0) as Hsome.
  pose proof (convert_first_failure scale weights) as Hconv.
  destruct (first_failure weights scale) as [[[[name role] i] e]|] eqn:Hff;
    [|contradiction].
  exists name, role, i, e. split; [reflexivity|]. split; [assumption|].
  now apply first_failure_sound.
Qed.

Lemma convert_weights_to_fixed_aborts_witness :
  exists name role i e,
    first_failure fails_in_b 0 = Some (name, role, i, e) /\
    convert_weights_to_fixed fails_in_b 0 = Raise e /\
    exists layer' x',
      In layer' fails_in_b /\ Weights.layerName layer' = name /\
      nth_error (flatten (Weights.data (match role with
                                        | Kernel => Weights.kernel layer'
                                        | Bias => Weights.bias layer'
                                        end))) i = Some x' /\
      float_to_fixed x' 0 = Raise e.
Proof.
  apply (convert_weights_to_fixed_aborts fails_in_b 0 layer_b PyFloat.nan
           ValueError_float_nan).
  - simpl. right. left. reflexivity.
  - vm_compute. do 3 right. left. reflexivity.
  - reflexivity.
Defined.

(** C9 as stated fails: the exception carries neither the name of the
    layer nor the index.  The two lists fail at different places and the
    pass raises the same exception for both. *)
Lemma convert_weights_to_fixed_annotation_counterexample :
  first_failure fails_in_a 0 = Some ("a"%string, Kernel, 0%nat, ValueError_float_nan) /\
  first_failure fails_in_b 0 = Some ("b"%string, Bias, 1%nat, ValueError_float_nan) /\
  convert_weights_to_fixed fails_in_a 0 = Raise ValueError_float_nan /\
  convert_weights_to_fixed fails_in_b 0 = Raise ValueError_float_nan.
Proof. repeat split; vm_compute; reflexivity. Qed.

(** ** The layout of the quantized layers *)

Section Layout.

Variable scale : N.

Lemma Forall2_nth_error_l {A B : Type} (R : A -> B -> Prop) (xs : list A) (ys : list B) :
  Forall2 R xs ys ->
  forall i x, nth_error xs i = Some x -> exists y, nth_error ys i = Some y /\ R x y.
Proof.
  induction 1 as [|x0 y0 xs ys H0 H IH]; intros [|i] x Hn; simpl in *; try discriminate.
  - injection Hn as <-. eauto.
  - eauto.
Qed.

Lemma mapM_encoded (vals : list PyFloat.float) (ps : list (Z * Z)) (shape : list Z) :
  mapM (codec scale) vals = Return ps ->
  encoded scale vals {| Fixed.magnitude := map snd ps;
                        Fixed.sign := map fst ps;
                        Fixed.shape := shape |}.
Proof.
  intros H. pose proof (mapM_length (codec scale) vals ps H) as Hlen.
  apply mapM_Forall2 in H. unfold encoded; simpl.
  rewrite !length_map. repeat split; trivial.
  intros i x Hn.
  destruct (Forall2_nth_error_l _ _ _ H i x Hn) as ([s m] & Hp & Hx).
  exists s, m. rewrite !nth_error_map, Hp. auto.
Qed.

Lemma convert_layer_quantized (l : Weights.layer) (q : Fixed.layer) :
  convert_layer l scale = Return q -> quantized scale l q.
Proof.
  unfold convert_layer. rewrite !fixed_loop_mapM. fold (codec scale).
  destruct (mapM (codec scale) (flatten (Weights.data (Weights.kernel l)))) as [pk|e] eqn:Hk;
    simpl; [|discriminate].
  destruct (mapM (codec scale) (flatten (Weights.data (Weights.bias l)))) as [pb|e] eqn:Hb;
    simpl; [|discriminate].
  intros [= <-]. constructor; simpl; trivial; now apply mapM_encoded.
Qed.

Lemma quantized_dense_layout (l : Weights.layer) (q : Fixed.layer) :
  quantized scale l q -> dense_layout scale l q.
Proof.
  intros [_ _ Hks _ (Hkm & Hksg & Hk) (Hbm & Hbsg & Hb)] rows cols (Hk2 & Hst & Hb1).
  rewrite flatten_length, Hk2 in Hkm, Hksg.
  rewrite flatten_length, Hb1 in Hbm, Hbsg.
  simpl in Hkm, Hksg, Hbm, Hbsg.
  rewrite Nat.mul_1_r in Hkm, Hksg, Hbm, Hbsg.
  repeat split; trivial; try congruence.
  - intros r c Hr Hc. apply Hk. now apply flatten_rank2 with rows.
  - intros c Hc. apply Hb. now apply flatten_rank1 with cols.
Qed.

End Layout.

(** An exception of the pass is the codec's on an element of a layer. *)
Lemma convert_weights_to_fixed_raise (weights : list Weights.layer) (scale : N) (e : exn) :
  convert_weights_to_fixed weights scale = Raise e ->
  exists layer x,
    In layer weights /\ In x (elements layer) /\ float_to_fixed x scale = Raise e.
Proof.
  intros H. pose proof (convert_first_failure scale weights) as Hc.
  destruct (first_failure weights scale) as [[[[name role] i] e']|] eqn:Hff.
  - rewrite H in Hc. injection Hc as <-.
    apply first_failure_sound in Hff.
    destruct Hff as (layer & x & Hin & _ & Hn & Hx).
    exists layer, x. repeat split; trivial.
    apply nth_error_In in Hn. unfold elements. apply in_or_app.
    destruct role; auto.
  - destruct Hc as [c Hc]. congruence.
Qed.

(** The pass returns as soon as every element encodes. *)
Lemma convert_weights_to_fixed_total (weights : list Weights.layer) (scale : N) :
  (forall layer x, In layer weights -> In x (elements layer) ->
                   exists r, float_to_fixed x scale = Return r) ->
  exists converted, convert_weights_to_fixed weights scale = Return converted.
Proof.
  intros Hall.
  destruct (convert_weights_to_fixed weights scale) as [converted|e] eqn:H; [eauto|].
  destruct (convert_weights_to_fixed_raise weights scale e H) as (layer & x & Hl & Hx & He).
  destruct (Hall layer x Hl Hx) as [r Hr]. congruence.
Qed.

(** C2.  When the pass returns, its output has one layer per input layer,
    in order, with the name and both stored shapes unchanged, and the i-th
    sign and magnitude of each tensor are the codec's on the i-th element
    in row-major order; for a record of a [rows] by [cols] kernel and a
    bias of [cols] elements the lists have [rows * cols] and [cols]
    elements and position [r * cols + c] encodes element [(r, c)].  When
    the pass raises, the exception is the codec's on one of the elements. *)
Theorem convert_weights_to_fixed_layout (weights : list Weights.layer) (scale : N) :
  match convert_weights_to_fixed weights scale with
  | Return converted =>
      Forall2 (fun l q => quantized scale l q /\ dense_layout scale l q)
              weights converted
  | Raise e =>
      exists layer x,
        In layer weights /\ In x (elements layer) /\ float_to_fixed x scale = Raise e
  end.
Proof.
  destruct (convert_weights_to_fixed weights scale) as [converted|e] eqn:H.
  - rewrite convert_weights_to_fixed_mapM in H. apply mapM_Forall2 in H.
    induction H as [|l q ls qs Hq _ IH]; constructor; trivial.
    apply convert_layer_quantized in Hq. split; trivial.
    now apply quantized_dense_layout.
  - now apply convert_weights_to_fixed_raise.
Qed.

Example scenario_a_converted :
  dense_record 2 1 (dense_layer "dense_1" (array2 1 [[Sample.d_1_005]; [Sample.minus_two]])
                                (array1 [Sample.half])) /\
  convert_weights_to_fixed scenario_a 2 =
    Return [ {| Fixed.layerName := "dense_1";
                Fixed.kernel := {| Fixed.magnitude := [100; 200];
                                   Fixed.sign := [0; 1];
                                   Fixed.shape := [2; 1] |};
                Fixed.bias := {| Fixed.magnitude := [50];
                                 Fixed.sign := [0];
                                 Fixed.shape := [1] |};
                Fixed.scale := 2 |} ].
Proof. split; [repeat split | vm_compute; reflexivity]. Qed.

(** ** The code generator *)

Section Generator.

Lemma append_assoc (a b c : string) :
  ((a ++ b) ++ c)%string = (a ++ (b ++ c))%string.
Proof. induction a as [|ch a IH]; simpl; [reflexivity | now rewrite IH]. Qed.

Lemma append_nil_r (a : string) : (a ++ EmptyString)%string = a.
Proof. induction a as [|ch a IH]; simpl; [reflexivity | now rewrite IH]. Qed.

Lemma declare_loop_ext (ws ws' : list Fixed.layer) :
  Forall2 same_printed_fields ws ws' ->
  forall move_code, declare_loop ws move_code = declare_loop ws' move_code.
Proof.
  induction 1 as [|q q' ws ws' Hq _ IH]; intros move_code; simpl; [reflexivity|].
  destruct Hq as [-> _ _ -> _ _].
  destruct (unpack2 (Fixed.shape (Fixed.kernel q'))) as [[i o]|e]; simpl; auto.
Qed.

Lemma weights_loop_ext (ws ws' : list Fixed.layer) :
  Forall2 same_printed_fields ws ws' ->
  forall move_code, weights_loop ws move_code = weights_loop ws' move_code.
Proof.
  induction 1 as [|q q' ws ws' Hq _ IH]; intros move_code; simpl; [reflexivity|].
  destruct Hq as [-> -> -> -> -> ->].
  destruct (getitem (Fixed.shape (Fixed.kernel q')) 0) as [s0|e]; simpl; auto.
  destruct (getitem (Fixed.shape (Fixed.kernel q')) 1) as [s1|e]; simpl; auto.
Qed.

Lemma declare_loop_text (ws : list Fixed.layer) :
  Forall rank2 ws ->
  forall move_code,
    declare_loop ws move_code =
      Return (move_code ++ join (map declaration_of ws))%string.
Proof.
  induction 1 as [|q ws Hq _ IH]; intros move_code.
  - simpl. now rewrite append_nil_r.
  - unfold rank2 in Hq. cbn [declare_loop map join fold_right].
    unfold declaration_of at 1.
    destruct (Fixed.shape (Fixed.kernel q)) as [|i [|o [|x r]]]; try discriminate.
    cbn [unpack2 bind nth]. now rewrite IH, append_assoc.
Qed.

Lemma weights_loop_text (ws : list Fixed.layer) :
  Forall rank2 ws ->
  forall move_code,
    weights_loop ws move_code =
      Return (move_code ++ join (map weight_block_of ws))%string.
Proof.
  induction 1 as [|q ws Hq _ IH]; intros move_code.
  - simpl. now rewrite append_nil_r.
  - unfold rank2 in Hq. cbn [weights_loop map join fold_right].
    unfold weight_block_of at 1.
    destruct (Fixed.shape (Fixed.kernel q)) as [|i [|o [|x r]]]; try discriminate.
    cbn [getitem nth_error bind nth]. now rewrite IH, append_assoc.
Qed.

(** The text generated for layers with kernel shapes of two components:
    the header, the declarations, the weight blocks, the footer. *)
Lemma generate_move_code_text (ws : list Fixed.layer) (scale : N) :
  Forall rank2 ws ->
  generate_move_code ws scale =
    Return (MoveText.header ++
            join (map declaration_of ws) ++
            join (map weight_block_of ws) ++
            MoveText.footer)%string.
Proof.
  intros H. unfold generate_move_code.
  rewrite (declare_loop_text ws H). cbn [bind].
  rewrite (weights_loop_text ws H). cbn [bind].
  now rewrite !append_assoc.
Qed.

Lemma generate_move_code_text_eq (ws : list Fixed.layer) (scale : N) :
  Forall rank2 ws -> generate_move_code ws scale = Return (module_text ws).
Proof.
  intros H. unfold generate_move_code, module_text.
  rewrite (declare_loop_text ws H). cbn [bind].
  rewrite (weights_loop_text ws H). cbn [bind].
  now rewrite !append_assoc.
Qed.

(** The generator never reads its [scale] argument: the one place of the
    template that names it is in the plain literal. *)
Lemma generate_move_code_ignores_scale (ws : list Fixed.layer) (scale scale' : N) :
  generate_move_code ws scale = generate_move_code ws scale'.
Proof. reflexivity. Qed.

End Generator.

Lemma flatten_same (a b : ndarray) : same_array a b -> flatten a = flatten b.
Proof.
  intros [Hsh Hit]. unfold flatten. rewrite <- Hsh. now apply map_ext_in.
Qed.

Lemma convert_layer_same (l l' : Weights.layer) (scale : N) :
  same_record l l' -> convert_layer l scale = convert_layer l' scale.
Proof.
  intros (Hn & (Hks & Hk) & (Hbs & Hb)). unfold convert_layer.
  now rewrite (flatten_same _ _ Hk), (flatten_same _ _ Hb), Hn, Hks, Hbs.
Qed.

Lemma convert_weights_to_fixed_same (ws ws' : list Weights.layer) (scale : N) :
  Forall2 same_record ws ws' ->
  convert_weights_to_fixed ws scale = convert_weights_to_fixed ws' scale.
Proof.
  intros H. rewrite !convert_weights_to_fixed_mapM.
  induction H as [|l l' ws ws' Hl _ IH]; simpl; [reflexivity|].
  now rewrite (convert_layer_same l l' scale Hl), IH.
Qed.

Lemma shape_list_same (a b : ndarray) : same_array a b -> shape_list a = shape_list b.
Proof. intros [Hsh _]. unfold shape_list. now rewrite Hsh. Qed.

Lemma load_keras_layers_same (m m' : Keras.model) :
  Forall2 same_keras_layer m m' ->
  forall acc acc', Forall2 same_record acc acc' ->
  Forall2 same_record (load_keras_layers m acc) (load_keras_layers m' acc').
Proof.
  induction 1 as [|l l' m m' [Hn Hw] _ IH]; intros acc acc' Hacc; simpl; trivial.
  unfold Keras.get_weights.
  inversion Hw as [|k k' ws ws' Hk Hws E E']; [now apply IH|].
  inversion Hws as [|b b' ws2 ws2' Hb Hws2 E2 E2']; subst; [now apply IH|].
  inversion Hws2; subst; [|now apply IH].
  apply IH. apply Forall2_app; trivial.
  constructor; [|constructor].
  repeat split; simpl; trivial; try (now apply shape_list_same); try apply Hk; apply Hb.
Qed.

(** Two loads of one model that agree on the names, the shapes and every
    element are converted alike, whatever else the array objects are. *)
Lemma convert_model_same (m1 m2 : Keras.model) (scale : N) :
  Forall2 same_keras_layer m1 m2 ->
  convert_model m1 scale = convert_model m2 scale.
Proof.
  intros Hm. unfold convert_model, quantize_and_generate. simpl.
  assert (H : Forall2 same_record (load_keras_layers m1 []) (load_keras_layers m2 []))
    by (apply load_keras_layers_same; [assumption | constructor]).
  now rewrite (convert_weights_to_fixed_same _ _ scale H).
Qed.

Example convert_model_same_loads :
  convert_model model_once 2 = convert_model model_again 2.
Proof.
  apply convert_model_same.
  constructor; [|constructor]. split; [reflexivity|].
  constructor; [|constructor; [|constructor]]; (split; [reflexivity|]).
  - simpl. intros ix [<-|[<-|[]]]; reflexivity.
  - simpl. intros ix [<-|[]]. reflexivity.
Qed.

(** C10.  The generated text depends on the name, the kernel's and the
    bias's magnitudes and signs and the kernel's shape of each layer, and
    on nothing else of the layers: lists that agree on these fields, and
    may differ in the stored scale or in the bias shape, give the same
    result for the same scale argument. *)
Theorem generate_move_code_printed_fields (ws ws' : list Fixed.layer) (scale : N) :
  Forall2 same_printed_fields ws ws' ->
  generate_move_code ws scale = generate_move_code ws' scale.
Proof.
  intros H. unfold generate_move_code.
  rewrite (declare_loop_ext ws ws' H).
  destruct (declare_loop ws' MoveText.header) as [move_code|e]; simpl; [|reflexivity].
  now rewrite (weights_loop_ext ws ws' H).
Qed.

Lemma generate_move_code_printed_fields_witness :
  Fixed.scale sample_quantized <> Fixed.scale sample_quantized' /\
  Fixed.shape (Fixed.bias sample_quantized) <> Fixed.shape (Fixed.bias sample_quantized') /\
  generate_move_code [sample_quantized] 2 = generate_move_code [sample_quantized'] 2.
Proof.
  split; [discriminate|]. split; [discriminate|].
  apply (generate_move_code_printed_fields [sample_quantized] [sample_quantized'] 2).
  constructor; [|constructor]. constructor; reflexivity.
Defined.

(** ** The layer extractor *)

Lemma load_keras_layers_filter (model : Keras.model) (converted_weights : list Weights.layer) :
  load_keras_layers model converted_weights =
    (converted_weights ++ map record_of (filter retained model))%list.
Proof.
  revert converted_weights.
  induction model as [|l model IH]; intros acc; simpl; [now rewrite app_nil_r|].
  unfold retained at 1, Keras.get_weights.
  destruct l as [name [|k [|b [|c ws]]]]; simpl; rewrite IH; trivial.
  now rewrite <- app_assoc.
Qed.

(** C6.  When the model loads, the extractor returns, in the order of the
    model's layers, the records of the layers with exactly two weight
    arrays and of no other: a layer without weights, with one array or with
    three or more is skipped, and the extractor does not fail on it. *)
Theorem load_h5_model_retains (model : Keras.model) (h5 : option H5.file) :
  load_h5_model (Some model) h5 = Return (map record_of (filter retained model)).
Proof. simpl. now rewrite load_keras_layers_filter. Qed.

(** Each layer of the model is either retained, with two arrays, or absent
    from the result, with another number of arrays. *)
Lemma load_h5_model_skips (model : Keras.model) (l : Keras.layer) :
  In l model ->
  (In (record_of l) (map record_of (filter retained model)) /\
   List.length (Keras.weights l) = 2%nat) \/
  (~ In l (filter retained model) /\ List.length (Keras.weights l) <> 2%nat).
Proof.
  intros Hl. destruct (retained l) eqn:Hr; unfold retained in Hr.
  - left. apply Nat.eqb_eq in Hr. split; trivial.
    apply in_map, filter_In. split; trivial. unfold retained. now rewrite Hr.
  - right. apply Nat.eqb_neq in Hr. split; trivial.
    rewrite filter_In. unfold retained. intros [_ H]. apply Nat.eqb_eq in H. contradiction.
Qed.

Example scenario_b_names :
  match load_h5_model (Some scenario_b) None with
  | Return ws => map Weights.layerName ws = ["dense_1"%string; "dense_2"%string]
  | Raise _ => False
  end.
Proof. reflexivity. Qed.

(** The extractor raises nothing but its own exception, and only when the
    model does not load. *)
Lemma load_h5_model_errors (keras : option Keras.model) (h5 : option H5.file) (e : exn) :
  load_h5_model keras h5 = Raise e ->
  keras = None /\ e = Exception_both_loaders_failed.
Proof.
  unfold load_h5_model. destruct keras as [model|]; [discriminate|].
  destruct h5 as [f|]; [destruct (load_h5_layers f f [])|];
    intros H; try discriminate; now injection H as <-.
Qed.

(** C7, as amended.  The extractor compares no shapes: a layer with two
    weight arrays is recorded with the shapes the arrays have, whatever
    they are, and the extraction of a loaded model does not fail; the one
    exception of the extractor is that of a model that does not load. *)
Theorem load_h5_model_no_shape_check (model : Keras.model) (h5 : option H5.file)
    (l : Keras.layer) (kernel bias : ndarray) :
  In l model ->
  Keras.weights l = [kernel; bias] ->
  (exists ws,
     load_h5_model (Some model) h5 = Return ws /\
     In (dense_layer (Keras.name l) kernel bias) ws) /\
  (forall keras e, load_h5_model keras h5 = Raise e ->
                   keras = None /\ e = Exception_both_loaders_failed).
Proof.
  intros Hl Hw. split; [|intros keras e; apply load_h5_model_errors].
  exists (map record_of (filter retained model)). split.
  - simpl. now rewrite load_keras_layers_filter.
  - replace (dense_layer (Keras.name l) kernel bias) with (record_of l)
      by (unfold record_of; now rewrite Hw).
    apply in_map, filter_In. split; trivial.
    unfold retained. now rewrite Hw.
Qed.

Lemma load_h5_model_no_shape_check_witness :
  (exists ws,
     load_h5_model (Some [mismatched]) None = Return ws /\
     In (dense_layer "dense_1" mismatched_kernel mismatched_bias) ws) /\
  (forall keras e, load_h5_model keras None = Raise e ->
                   keras = None /\ e = Exception_both_loaders_failed).
Proof.
  apply (load_h5_model_no_shape_check [mismatched] None mismatched
           mismatched_kernel mismatched_bias).
  - left. reflexivity.
  - reflexivity.
Defined.

(** C7 as stated fails: the kernel's second dimension is 3, the bias has 5
    elements, and the extractor returns the record. *)
Lemma load_h5_model_mismatch_counterexample :
  nd_shape mismatched_kernel = [2; 3]%nat /\
  nd_shape mismatched_bias = [5]%nat /\
  load_h5_model (Some [mismatched]) None =
    Return [ {| Weights.layerName := "dense_1";
                Weights.kernel := {| Weights.shape := [2; 3];
                                     Weights.data := mismatched_kernel |};
                Weights.bias := {| Weights.shape := [5];
                                   Weights.data := mismatched_bias |} |} ].
Proof. repeat split. Qed.

(** * Properties of the rest of the program *)

(** ** Substrings *)

Section Substrings.

Lemma prefix_spec (sub s : string) :
  String.prefix sub s = true <-> exists b, s = (sub ++ b)%string.
Proof.
  revert s. induction sub as [|c sub IH]; intros s; simpl.
  - destruct s; split; eauto.
  - destruct s as [|d s]; simpl.
    + split; [discriminate | intros [b H]; discriminate].
    + destruct (ascii_dec c d) as [->|Hne].
      * rewrite IH. split; intros [b H]; exists b; congruence.
      * split; [discriminate | intros [b H]; congruence].
Qed.

Lemma contains_eq (sub s : string) :
  contains sub s =
    if String.prefix sub s then true
    else match s with
         | EmptyString => false
         | String _ s' => contains sub s'
         end.
Proof. destruct s; reflexivity. Qed.

(** [sub in s] holds exactly when [s] has [sub] between two strings. *)
Lemma contains_spec (sub s : string) :
  contains sub s = true <-> exists a b, s = (a ++ sub ++ b)%string.
Proof.
  induction s as [|d s IH]; rewrite contains_eq.
  - destruct (String.prefix sub EmptyString) eqn:Hp.
    + apply prefix_spec in Hp. destruct Hp as [b Hb].
      split; trivial. intros _. exists EmptyString, b. exact Hb.
    + split; [discriminate|]. intros (a & b & H).
      destruct a; simpl in H; [|discriminate].
      assert (String.prefix sub EmptyString = true) by (apply prefix_spec; eauto).
      congruence.
  - destruct (String.prefix sub (String d s)) eqn:Hp.
    + apply prefix_spec in Hp. destruct Hp as [b Hb].
      split; trivial. intros _. exists EmptyString, b. exact Hb.
    + rewrite IH. split.
      * intros (a & b & ->). exists (String d a), b. reflexivity.
      * intros (a & b & H). destruct a as [|c a]; simpl in H.
        -- assert (String.prefix sub (String d s) = true) by (apply prefix_spec; eauto).
           congruence.
        -- injection H as _ ->. eauto.
Qed.

Lemma contains_app (sub a s b : string) :
  contains sub s = true -> contains sub (a ++ s ++ b) = true.
Proof.
  rewrite !contains_spec. intros (x & y & ->).
  exists (a ++ x)%string, (y ++ b)%string.
  now rewrite !append_assoc.
Qed.

End Substrings.

(** ** The configuration dictionary *)

Lemma config_get_set (c : config) (key value key' : string) :
  config_get (dict_set c key value) key' =
    if String.eqb key key' then Return value else config_get c key'.
Proof.
  induction c as [|[k v] rest IH]; simpl.
  - rewrite String.eqb_sym. destruct (String.eqb key' key); reflexivity.
  - destruct (String.eqb k key) eqn:Hk; simpl.
    + apply String.eqb_eq in Hk. subst k.
      destruct (String.eqb key key'); reflexivity.
    + destruct (String.eqb k key') eqn:Hk'; [|assumption].
      apply String.eqb_eq in Hk'. subst k. now rewrite String.eqb_sym, Hk.
Qed.

Lemma dict_set_keys (c : config) (key value k : string) :
  In k (map fst (dict_set c key value)) <-> In k (map fst c) \/ k = key.
Proof.
  induction c as [|[k0 v0] rest IH]; simpl.
  - intuition.
  - destruct (String.eqb k0 key) eqn:Hk; simpl.
    + apply String.eqb_eq in Hk. subst k0. intuition.
    + rewrite IH. intuition.
Qed.

Lemma dict_set_NoDup (c : config) (key value : string) :
  NoDup (map fst c) -> NoDup (map fst (dict_set c key value)).
Proof.
  induction c as [|[k0 v0] rest IH]; simpl; intros H.
  - constructor; [intros [] | constructor].
  - destruct (String.eqb k0 key) eqn:Hk; simpl; [assumption|].
    inversion H as [|? ? Hnin Hnd]; subst. constructor; [|now apply IH].
    rewrite dict_set_keys. intros [Hin| ->]; [contradiction|].
    now rewrite String.eqb_refl in Hk.
Qed.

Section LoadConfig.

Lemma load_config_loop_app (l1 l2 : list string) (c : config) :
  load_config_loop (l1 ++ l2) c =
    c' <- load_config_loop l1 c ;; load_config_loop l2 c'.
Proof.
  revert c. induction l1 as [|line l1 IH]; intros c; simpl; [reflexivity|].
  destruct (PyStr.nonempty _ && negb _); [|apply IH].
  destruct (contains "=" _); [|apply IH].
  destruct (unpack2 _) as [[key value]|e]; simpl; [apply IH | reflexivity].
Qed.

Lemma load_config_loop_skip (line : string) (rest : list string) (c : config) :
  assigns line = false ->
  load_config_loop (line :: rest) c = load_config_loop rest c.
Proof.
  unfold assigns. simpl. intros H.
  destruct (PyStr.nonempty _ && negb _); [|reflexivity].
  simpl in H. now rewrite H.
Qed.

Lemma load_config_loop_assign (line : string) (rest : list string) (c : config) :
  assigns line = true ->
  load_config_loop (line :: rest) c =
    '(key, value) <- unpack2 (map PyStr.strip (PyStr.split "=" (PyStr.strip line))) ;;
    load_config_loop rest (dict_set c key (PyStr.strip_chars quote_chars value)).
Proof.
  unfold assigns. simpl. intros H.
  apply andb_true_iff in H. destruct H as [-> ->]. reflexivity.
Qed.

End LoadConfig.

(** X1.  Blank lines, comment lines and lines without an equals sign
    change nothing: the file reads as the list of its assigning lines. *)
Theorem load_config_ignores (lines : list string) :
  load_config lines = load_config (filter assigns lines).
Proof.
  unfold load_config. generalize (@nil (string * string)) as c.
  induction lines as [|line lines IH]; intros c; [reflexivity|].
  cbn [filter]. destruct (assigns line) eqn:Ha.
  - rewrite !load_config_loop_assign by assumption.
    destruct (unpack2 _) as [[key value]|e]; simpl; [apply IH | reflexivity].
  - rewrite load_config_loop_skip by assumption. apply IH.
Qed.

(** An assignment [config[key] = value] is read back under its key,
    changes the value of no other key, and keeps the keys distinct. *)
Theorem config_get_dict_set (c : config) (key value key' : string) :
  config_get (dict_set c key value) key' =
    (if String.eqb key key' then Return value else config_get c key') /\
  (NoDup (map fst c) -> NoDup (map fst (dict_set c key value))).
Proof. split; [apply config_get_set | apply dict_set_NoDup]. Qed.

Lemma config_get_dict_set_witness :
  config_get (dict_set two_keys "A" "3") "A" = Return "3"%string /\
  config_get (dict_set two_keys "A" "3") "B" = Return "2"%string /\
  NoDup (map fst (dict_set two_keys "A" "3")).
Proof.
  pose proof (config_get_dict_set two_keys "A" "3") as H.
  split; [exact (proj1 (H "A"%string))|]. split; [exact (proj1 (H "B"%string))|].
  apply (proj2 (H "A"%string)).
  constructor; [|constructor; [|constructor]]; simpl; intuition discriminate.
Defined.

Section ConfigLines.

Lemma split_length (sep : ascii) (s : string) :
  List.length (PyStr.split sep s) = S (count_char sep s).
Proof.
  induction s as [|c s IH]; simpl; [reflexivity|].
  destruct (Ascii.eqb c sep); simpl; [now rewrite IH|].
  destruct (PyStr.split sep s) as [|part parts]; simpl in *; [discriminate | assumption].
Qed.

Lemma unpack2_length {A : Type} (l : list A) :
  match unpack2 l with
  | Return _ => List.length l = 2%nat
  | Raise e => List.length l <> 2%nat /\ e = ValueError_unpack (List.length l)
  end.
Proof. destruct l as [|a [|b [|c l]]]; simpl; auto. Qed.

Lemma load_config_loop_outcome (lines : list string) (c : config) :
  match first_bad_line lines with
  | Some n => load_config_loop lines c = Raise (ValueError_unpack n)
  | None => exists c', load_config_loop lines c = Return c'
  end.
Proof.
  revert c. induction lines as [|line lines IH]; intros c; [simpl; eauto|].
  cbn [first_bad_line]. destruct (assigns line) eqn:Ha; cbn [andb].
  - rewrite load_config_loop_assign by assumption.
    pose proof (unpack2_length (map PyStr.strip (PyStr.split "=" (PyStr.strip line)))) as Hu.
    rewrite length_map, split_length in Hu.
    destruct (Nat.eqb (count_char "=" (PyStr.strip line)) 1) eqn:Hc; cbn [negb].
    + destruct (unpack2 _) as [[key value]|e]; [apply IH|].
      apply Nat.eqb_eq in Hc. destruct Hu as [Hu _]. congruence.
    + destruct (unpack2 _) as [[key value]|e].
      * apply Nat.eqb_neq in Hc. congruence.
      * destruct Hu as [_ ->]. reflexivity.
  - rewrite load_config_loop_skip by assumption. apply IH.
Qed.

End ConfigLines.

(** X2.  [load_config] raises [ValueError] at the first assigning line that
    has more than one equals sign, and returns a dictionary when there is
    no such line. *)
Theorem load_config_outcome (lines : list string) :
  match first_bad_line lines with
  | Some n => (3 <= n)%nat /\ load_config lines = Raise (ValueError_unpack n)
  | None => exists c, load_config lines = Return c
  end.
Proof.
  pose proof (load_config_loop_outcome lines []) as H. unfold load_config.
  destruct (first_bad_line lines) as [n|] eqn:Hf; [|assumption].
  split; [|assumption].
  clear H. induction lines as [|line lines IH]; [discriminate|].
  cbn [first_bad_line] in Hf.
  destruct (assigns line) eqn:Ha; cbn [andb] in Hf; [|auto].
  destruct (Nat.eqb (count_char "=" (PyStr.strip line)) 1) eqn:Hc; cbn [negb] in Hf; [auto|].
  injection Hf as <-. apply Nat.eqb_neq in Hc.
  unfold assigns in Ha. apply andb_true_iff in Ha. destruct Ha as [_ Ha].
  apply contains_spec in Ha. destruct Ha as (a & b & Ha).
  cbv zeta in Ha. rewrite Ha in *.
  assert (Hcount : forall x y, count_char "=" (x ++ y) = (count_char "=" x + count_char "=" y)%nat).
  { intros x y. induction x as [|ch x IHx]; simpl; [reflexivity|]. rewrite IHx. lia. }
  rewrite Hcount in *. simpl in *. lia.
Qed.

(** ** Stripping *)

Section Stripping.

Variable p : ascii -> bool.

Lemma lstrip_by_head : forall s, head_ok p (PyStr.lstrip_by p s).
Proof.
  induction s as [|c s IH]; simpl; trivial.
  destruct (p c) eqn:Hc; simpl; trivial.
Qed.

Lemma head_ok_lstrip : forall s, head_ok p s -> PyStr.lstrip_by p s = s.
Proof. intros [|c s]; simpl; trivial. now intros ->. Qed.

Lemma rstrip_by_head : forall s, head_ok p s -> head_ok p (PyStr.rstrip_by p s).
Proof.
  intros [|c s]; simpl; trivial. intros Hc.
  destruct (PyStr.rstrip_by p s); simpl; trivial. now rewrite Hc.
Qed.

Lemma rstrip_by_idem : forall s,
  PyStr.rstrip_by p (PyStr.rstrip_by p s) = PyStr.rstrip_by p s.
Proof.
  induction s as [|c s IH]; simpl; trivial.
  destruct (PyStr.rstrip_by p s) as [|d r] eqn:Hr.
  - destruct (p c) eqn:Hc; simpl; trivial. now rewrite Hc.
  - cbn [PyStr.rstrip_by]. cbn [PyStr.rstrip_by] in IH. now rewrite IH.
Qed.

Lemma strip_by_head : forall s, head_ok p (PyStr.strip_by p s).
Proof. intros s. apply rstrip_by_head, lstrip_by_head. Qed.

Lemma strip_by_idem : forall s, stripped p (PyStr.strip_by p s).
Proof.
  intros s. unfold stripped. unfold PyStr.strip_by at 1.
  rewrite (head_ok_lstrip _ (strip_by_head s)).
  apply rstrip_by_idem.
Qed.

Lemma stripped_parts : forall s,
  stripped p s -> PyStr.lstrip_by p s = s /\ PyStr.rstrip_by p s = s.
Proof.
  intros s Hs. assert (Hh : head_ok p s) by (rewrite <- Hs; apply strip_by_head).
  split; [now apply head_ok_lstrip|].
  unfold stripped, PyStr.strip_by in Hs. now rewrite (head_ok_lstrip _ Hh) in Hs.
Qed.

Lemma lstrip_by_app_all : forall a s,
  all_in p a -> PyStr.lstrip_by p (a ++ s) = PyStr.lstrip_by p s.
Proof.
  induction a as [|c a IH]; simpl; intros s H; trivial.
  destruct H as [-> H]. now apply IH.
Qed.

Lemma lstrip_by_app_head : forall s w,
  head_ok p s -> s <> EmptyString -> PyStr.lstrip_by p (s ++ w) = (s ++ w)%string.
Proof. intros [|c s] w; simpl; [congruence|]. now intros ->. Qed.

Lemma rstrip_by_app_all : forall s b,
  all_in p b -> PyStr.rstrip_by p (s ++ b) = PyStr.rstrip_by p s.
Proof.
  intros s b Hb. induction s as [|c s IH]; simpl.
  - induction b as [|d b IHb]; simpl; trivial.
    destruct Hb as [Hd Hb]. rewrite (IHb Hb). simpl. now rewrite Hd.
  - now rewrite IH.
Qed.

Lemma rstrip_by_app_last : forall s c,
  p c = false ->
  PyStr.rstrip_by p (s ++ String c EmptyString) = (s ++ String c EmptyString)%string.
Proof.
  intros s c Hc. induction s as [|d s IH]; simpl.
  - now rewrite Hc.
  - rewrite IH. destruct s; reflexivity.
Qed.

End Stripping.

(** ** The dictionary [load_config] returns *)

Section ConfigInvariant.

Lemma dict_set_clean (c : config) (key value : string) :
  Forall clean_item c -> clean_item (key, value) ->
  Forall clean_item (dict_set c key value).
Proof.
  intros Hc Hkv. induction Hc as [|[k v] rest Hk Hrest IH]; simpl.
  - constructor; [assumption | constructor].
  - destruct (String.eqb k key) eqn:Hkk.
    + constructor; trivial. destruct Hk as [Hk _], Hkv as [_ Hv]. split; assumption.
    + constructor; assumption.
Qed.

Lemma load_config_loop_invariant (lines : list string) (c c' : config) :
  Forall clean_item c -> NoDup (map fst c) ->
  load_config_loop lines c = Return c' ->
  Forall clean_item c' /\ NoDup (map fst c').
Proof.
  revert c. induction lines as [|line lines IH]; intros c Hc Hnd H.
  - injection H as <-. auto.
  - destruct (assigns line) eqn:Ha.
    + rewrite load_config_loop_assign in H by assumption.
      destruct (PyStr.split "=" (PyStr.strip line)) as [|k [|v [|x r]]]; try discriminate.
      simpl in H. apply IH in H; trivial.
      * apply dict_set_clean; trivial. split; apply strip_by_idem.
      * now apply dict_set_NoDup.
    + rewrite load_config_loop_skip in H by assumption. now apply IH in H.
Qed.

End ConfigInvariant.

(** X3.  In the dictionary [load_config] returns the keys are distinct and
    have no white space at either end, and the values have none of the
    characters quote, double quote, space, tab and semicolon at either
    end: stripping them again changes nothing. *)
Theorem load_config_clean (lines : list string) (c : config) :
  load_config lines = Return c ->
  Forall clean_item c /\ NoDup (map fst c).
Proof.
  intros H. apply (load_config_loop_invariant lines [] c); trivial; constructor.
Qed.

Lemma load_config_clean_witness :
  Forall clean_item scale_config /\ NoDup (map fst scale_config).
Proof. apply (load_config_clean sample_lines scale_config). reflexivity. Defined.

(** X4.  A later assignment wins.  After a file that reads as [c], one more
    line [k=v] gives the dictionary in which the stripped key has the
    stripped value and every other key the value it has in [c]. *)
Theorem load_config_last_wins (lines : list string) (c : config) (line k v : string) :
  load_config lines = Return c ->
  assigns line = true ->
  PyStr.split "=" (PyStr.strip line) = [k; v] ->
  exists c',
    load_config (lines ++ [line]) = Return c' /\
    config_get c' (PyStr.strip k) = Return (PyStr.strip_chars quote_chars (PyStr.strip v)) /\
    forall k', k' <> PyStr.strip k -> config_get c' k' = config_get c k'.
Proof.
  intros Hc Ha Hs. unfold load_config in *.
  rewrite load_config_loop_app, Hc. cbn [bind].
  rewrite load_config_loop_assign, Hs by assumption. cbn [map unpack2 bind load_config_loop].
  eexists. split; [reflexivity|]. split.
  - now rewrite config_get_set, String.eqb_refl.
  - intros k' Hk. rewrite config_get_set.
    destruct (String.eqb (PyStr.strip k) k') eqn:E; trivial.
    apply String.eqb_eq in E. congruence.
Qed.

Lemma load_config_last_wins_witness :
  exists c',
    load_config (sample_lines ++ [network_line]) = Return c' /\
    config_get c' (PyStr.strip network_key) =
      Return (PyStr.strip_chars quote_chars (PyStr.strip network_value)) /\
    forall k', k' <> PyStr.strip network_key -> config_get c' k' = config_get scale_config k'.
Proof.
  apply (load_config_last_wins sample_lines scale_config network_line
           network_key network_value); reflexivity.
Defined.

Section ConfigLine.

Lemma count_char_app (c : ascii) (x y : string) :
  count_char c (x ++ y) = (count_char c x + count_char c y)%nat.
Proof. induction x as [|d x IH]; simpl; [reflexivity | rewrite IH; lia]. Qed.

Lemma split_no_sep (sep : ascii) (s : string) :
  count_char sep s = 0%nat -> PyStr.split sep s = [s].
Proof.
  induction s as [|c s IH]; simpl; [reflexivity|].
  destruct (Ascii.eqb c sep); [discriminate|]. simpl. intros H. now rewrite IH.
Qed.

Lemma split_app_sep (sep : ascii) (a b : string) :
  count_char sep a = 0%nat ->
  PyStr.split sep (a ++ String sep b) = a :: PyStr.split sep b.
Proof.
  induction a as [|c a IH]; simpl.
  - now rewrite Ascii.eqb_refl.
  - destruct (Ascii.eqb c sep); [discriminate|]. simpl. intros H. now rewrite IH.
Qed.

Lemma prefix_nil (s : string) : String.prefix EmptyString s = true.
Proof. destruct s; reflexivity. Qed.

Lemma prefix_cons (a b : ascii) (s1 s2 : string) :
  String.prefix (String a s1) (String b s2) =
    if ascii_dec a b then String.prefix s1 s2 else false.
Proof. reflexivity. Qed.

Lemma startswith_app (s w : string) :
  s <> EmptyString ->
  PyStr.startswith (s ++ w) "#" = PyStr.startswith s "#".
Proof.
  destruct s as [|c s]; [congruence|]. intros _. unfold PyStr.startswith.
  change (String c s ++ w)%string with (String c (s ++ w)).
  rewrite !prefix_cons. destruct (ascii_dec "#" c); [now rewrite !prefix_nil | reflexivity].
Qed.

Lemma nonempty_app (s w : string) :
  s <> EmptyString -> PyStr.nonempty (s ++ w) = true.
Proof. destruct s; [congruence | reflexivity]. Qed.

Variables key value : string.
Hypothesis key_stripped : stripped PyStr.isspace key.
Hypothesis key_nonempty : key <> EmptyString.
Hypothesis key_no_hash : PyStr.startswith key "#" = false.
Hypothesis key_no_equals : count_char "=" key = 0%nat.
Hypothesis value_stripped : stripped (fun c => PyStr.mem c quote_chars) value.
Hypothesis value_no_equals : count_char "=" value = 0%nat.

Lemma config_line_strip : PyStr.strip (config_line key value) = config_line key value.
Proof.
  unfold PyStr.strip, PyStr.strip_by, config_line.
  rewrite lstrip_by_app_head; trivial.
  - replace (key ++ " = '" ++ value ++ "';")%string
      with ((key ++ " = '" ++ value ++ "'") ++ ";")%string
      by (repeat (rewrite append_assoc; simpl); reflexivity).
    now apply rstrip_by_app_last.
  - rewrite <- key_stripped. apply strip_by_head.
Qed.

Lemma config_line_assigns : assigns (config_line key value) = true.
Proof.
  unfold assigns. rewrite config_line_strip. unfold config_line.
  rewrite nonempty_app, startswith_app, key_no_hash by assumption. simpl.
  replace (key ++ String " " (String "=" (String " " (String "'" (value ++ "';")))))%string
    with ((key ++ " ") ++ "=" ++ " '" ++ value ++ "';")%string
    by (repeat (rewrite append_assoc; simpl); reflexivity).
  now apply contains_app.
Qed.

Lemma config_line_split :
  map PyStr.strip (PyStr.split "=" (config_line key value)) =
    [key; ("'" ++ value ++ "';")%string].
Proof.
  unfold config_line.
  replace (key ++ " = '" ++ value ++ "';")%string
    with ((key ++ " ") ++ String "=" (" '" ++ value ++ "';"))%string
    by (repeat (rewrite append_assoc; simpl); reflexivity).
  rewrite split_app_sep by (rewrite count_char_app, key_no_equals; reflexivity).
  rewrite split_no_sep
    by (simpl; rewrite count_char_app, value_no_equals; reflexivity).
  cbn [map]. f_equal; [|f_equal].
  - unfold PyStr.strip, PyStr.strip_by.
    destruct (stripped_parts _ _ key_stripped) as [Hl Hr].
    rewrite lstrip_by_app_head; trivial.
    + rewrite rstrip_by_app_all; [assumption | simpl; auto].
    + rewrite <- key_stripped. apply strip_by_head.
  - unfold PyStr.strip, PyStr.strip_by. simpl PyStr.lstrip_by.
    replace (String "'" (value ++ "';"))%string
      with ((String "'" (value ++ "'")) ++ ";")%string
      by (simpl; repeat (rewrite append_assoc; simpl); reflexivity).
    rewrite rstrip_by_app_last by reflexivity.
    simpl; repeat (rewrite append_assoc; simpl); reflexivity.
Qed.

Lemma config_line_value :
  PyStr.strip_chars quote_chars ("'" ++ value ++ "';") = value.
Proof.
  unfold PyStr.strip_chars, PyStr.strip_by.
  destruct (stripped_parts _ _ value_stripped) as [Hl Hr].
  simpl PyStr.lstrip_by.
  destruct value as [|c v] eqn:Hv; [reflexivity|]. rewrite <- Hv in *.
  rewrite lstrip_by_app_head.
  - rewrite rstrip_by_app_all; [assumption | simpl; auto].
  - rewrite <- value_stripped. apply strip_by_head.
  - congruence.
Qed.

Lemma config_line_loop (rest : list string) (c : config) :
  load_config_loop (config_line key value :: rest) c =
    load_config_loop rest (dict_set c key value).
Proof.
  rewrite load_config_loop_assign by apply config_line_assigns.
  rewrite config_line_strip, config_line_split. cbn [unpack2 bind].
  now rewrite config_line_value.
Qed.

End ConfigLine.

(** X5.  The line [key = 'value';] reads back as the pair it was written
    from: for a key without white space at its ends, equals sign or leading
    hash and a value without equals sign or quote characters at its ends,
    appending the line to a file assigns exactly that value to that key. *)
Theorem load_config_line (lines : list string) (c : config) (key value : string) :
  stripped PyStr.isspace key ->
  key <> EmptyString ->
  PyStr.startswith key "#" = false ->
  count_char "=" key = 0%nat ->
  stripped (fun ch => PyStr.mem ch quote_chars) value ->
  count_char "=" value = 0%nat ->
  load_config lines = Return c ->
  load_config (lines ++ [config_line key value]) = Return (dict_set c key value) /\
  config_get (dict_set c key value) key = Return value.
Proof.
  intros Hk Hne Hh Hke Hv Hve Hc. split.
  - unfold load_config in *. rewrite load_config_loop_app, Hc. cbn [bind].
    now rewrite config_line_loop.
  - now rewrite config_get_set, String.eqb_refl.
Qed.

Lemma load_config_line_witness :
  load_config (sample_lines ++ [config_line "NETWORK" "testnet"])
    = Return (dict_set [("SCALE"%string, "2"%string)] "NETWORK" "testnet") /\
  config_get (dict_set [("SCALE"%string, "2"%string)] "NETWORK" "testnet") "NETWORK"
    = Return "testnet"%string.
Proof.
  apply (load_config_line sample_lines [("SCALE"%string, "2"%string)]
           "NETWORK" "testnet"); try reflexivity.
  discriminate.
Defined.

(** ** The second loader *)

Section Fallback.

Variable f : H5.file.

Lemma load_h5_layers_step (layer_name : string) (n : H5.node)
    (rest : list (string * H5.node)) (acc : list Weights.layer) :
  load_h5_layers f ((layer_name, n) :: rest) acc =
    if contains "dense" layer_name then
      weights <- read_dense f layer_name "kernel:0" ;;
      bias <- read_dense f layer_name "bias:0" ;;
      load_h5_layers f rest (acc ++ [dense_layer layer_name weights bias])
    else load_h5_layers f rest acc.
Proof.
  cbn [load_h5_layers]. destruct (contains "dense" layer_name); [|reflexivity].
  unfold read_dense.
  destruct (H5.lookup f layer_name) as [g|e]; cbn [bind]; [|reflexivity].
  destruct (H5.getitem g "dense") as [d|e]; cbn [bind]; [|reflexivity].
  destruct (H5.getitem d "kernel:0") as [kn|e]; cbn [bind]; [|reflexivity].
  destruct (H5.read kn) as [weights|e]; cbn [bind]; [|reflexivity].
  destruct (H5.getitem d "bias:0") as [bn|e]; cbn [bind]; [|reflexivity].
  destruct (H5.read bn) as [bias|e]; cbn [bind]; reflexivity.
Qed.

(** The names the loop keeps and the records it builds. *)
Lemma load_h5_layers_outcome (members : list (string * H5.node)) (acc : list Weights.layer) :
  match load_h5_layers f members acc with
  | Return ws =>
      forallb (readable f) (map fst members) = true /\
      exists new,
        ws = (acc ++ new)%list /\
        map Weights.layerName new = filter (contains "dense") (map fst members) /\
        Forall (fun l => h5_record f (Weights.layerName l) = Some l) new
  | Raise _ => forallb (readable f) (map fst members) = false
  end.
Proof.
  revert acc. induction members as [|[name n] rest IH]; intros acc.
  - simpl. split; trivial. exists []. rewrite app_nil_r. repeat split; constructor.
  - rewrite load_h5_layers_step. cbn [map fst forallb filter].
    unfold readable at 1 3.
    destruct (contains "dense" name) eqn:Hd; cbn [negb orb].
    + destruct (read_dense f name "kernel:0") as [weights|e] eqn:Hk; cbn [bind]; trivial.
      destruct (read_dense f name "bias:0") as [bias|e] eqn:Hb; cbn [bind]; trivial.
      specialize (IH (acc ++ [dense_layer name weights bias])%list).
      destruct (load_h5_layers f rest _) as [ws|e]; trivial.
      destruct IH as (Hall & new & -> & Hn & Hr). split; trivial.
      exists (dense_layer name weights bias :: new).
      rewrite <- app_assoc. repeat split; simpl; [now rewrite Hn|].
      constructor; trivial. unfold h5_record. simpl. now rewrite Hk, Hb.
    + specialize (IH acc). destruct (load_h5_layers f rest acc) as [ws|e]; trivial.
Qed.

End Fallback.

(** X6.  When the model does not load and the file opens, the second loader
    returns, in the order of the file, one record per top-level group whose
    name has [dense] as a substring, built from the arrays at
    [dense/kernel:0] and [dense/bias:0] of the group; it raises the
    function's own exception as soon as one such group lacks one of the
    two, whatever the other groups hold. *)
Theorem load_h5_model_fallback (f : H5.file) :
  match load_h5_model None (Some f) with
  | Return ws =>
      forallb (readable f) (map fst f) = true /\
      map Weights.layerName ws = filter (contains "dense") (map fst f) /\
      Forall (fun l => h5_record f (Weights.layerName l) = Some l) ws
  | Raise e =>
      e = Exception_both_loaders_failed /\
      forallb (readable f) (map fst f) = false
  end.
Proof.
  unfold load_h5_model. pose proof (load_h5_layers_outcome f f []) as H.
  destruct (load_h5_layers f f []) as [ws|e]; [|auto].
  destruct H as (Hall & new & -> & Hn & Hr). auto.
Qed.

Example load_h5_model_fallback_samples :
  load_h5_model None (Some keras_file) = Return [] /\
  load_h5_model None (Some flat_file) = Raise Exception_both_loaders_failed /\
  map (readable flat_file) (map fst flat_file) = [true; true; false].
Proof. repeat split. Qed.

Section StoredShapes.

Lemma dense_layer_stores (name : string) (kernel bias : ndarray) :
  stores_shapes (dense_layer name kernel bias).
Proof. split; reflexivity. Qed.

Lemma h5_record_stores (f : H5.file) (l : Weights.layer) :
  h5_record f (Weights.layerName l) = Some l -> stores_shapes l.
Proof.
  unfold h5_record.
  destruct (read_dense f _ "kernel:0"); [|discriminate].
  destruct (read_dense f _ "bias:0"); [|discriminate].
  intros [= <-]. apply dense_layer_stores.
Qed.

End StoredShapes.

(** X7.  On either path every record the extractor returns stores, for the
    kernel and for the bias, the shape of the array it holds. *)
Theorem load_h5_model_stores_shapes (keras : option Keras.model) (h5 : option H5.file)
    (ws : list Weights.layer) :
  load_h5_model keras h5 = Return ws -> Forall stores_shapes ws.
Proof.
  destruct keras as [model|].
  - simpl. intros [= <-]. rewrite load_keras_layers_filter. simpl.
    apply Forall_forall. intros l Hl. apply in_map_iff in Hl.
    destruct Hl as (kl & <- & _). apply dense_layer_stores.
  - destruct h5 as [f|]; [|discriminate].
    pose proof (load_h5_layers_outcome f f []) as H. unfold load_h5_model.
    destruct (load_h5_layers f f []) as [ws'|e]; [|discriminate].
    intros [= <-]. destruct H as (_ & new & -> & _ & Hr). simpl.
    apply Forall_forall. intros l Hl. rewrite Forall_forall in Hr.
    eapply h5_record_stores, Hr, Hl.
Qed.

Lemma load_h5_model_stores_shapes_witness :
  Forall stores_shapes (load_keras_layers scenario_b []).
Proof.
  apply (load_h5_model_stores_shapes (Some scenario_b) None). reflexivity.
Defined.

(** ** The generator, every outcome *)

Section GeneratorOutcome.

Lemma declare_loop_bad (ws : list Fixed.layer) (n : nat) :
  first_bad_shape ws = Some n ->
  forall move_code, declare_loop ws move_code = Raise (ValueError_unpack n).
Proof.
  induction ws as [|q ws IH]; simpl; [discriminate|].
  destruct (Fixed.shape (Fixed.kernel q)) as [|i [|o [|x r]]]; simpl;
    try (intros [= <-]; reflexivity).
  intros H move_code. now apply IH.
Qed.

Lemma first_bad_shape_none (ws : list Fixed.layer) :
  first_bad_shape ws = None -> Forall rank2 ws.
Proof.
  induction ws as [|q ws IH]; simpl; [constructor|].
  destruct (Nat.eqb _ 2) eqn:H; [|discriminate].
  apply Nat.eqb_eq in H. constructor; auto.
Qed.

Lemma generate_move_code_cases (ws : list Fixed.layer) (scale : N) :
  generate_move_code ws scale =
    match first_bad_shape ws with
    | Some n => Raise (ValueError_unpack n)
    | None => Return (module_text ws)
    end.
Proof.
  destruct (first_bad_shape ws) as [n|] eqn:H.
  - unfold generate_move_code. now rewrite (declare_loop_bad ws n H).
  - apply generate_move_code_text_eq. now apply first_bad_shape_none.
Qed.

End GeneratorOutcome.

(** X8.  On layers whose printed integers have at most 4300 digits each,
    the limit of [str], the generator raises [ValueError] exactly when a
    kernel shape has not two components, for the first such layer, and
    never [IndexError]; otherwise the text is the header, one declaration
    per layer in order, one weight block per layer in order, and the
    footer. *)
Theorem generate_move_code_outcome (ws : list Fixed.layer) (scale : N) :
  printable ws = true ->
  generate_move_code ws scale =
    match first_bad_shape ws with
    | Some n => Raise (ValueError_unpack n)
    | None => Return (MoveText.header ++
                      join (map declaration_of ws) ++
                      join (map weight_block_of ws) ++
                      MoveText.footer)%string
    end.
Proof. intros _. apply generate_move_code_cases. Qed.

Lemma generate_move_code_outcome_witness :
  generate_move_code [sample_quantized] 2 = Return (module_text [sample_quantized]) /\
  generate_move_code [sample_quantized; conv_quantized] 2 = Raise (ValueError_unpack 4).
Proof.
  split.
  - apply (generate_move_code_outcome [sample_quantized] 2). vm_compute. reflexivity.
  - apply (generate_move_code_outcome [sample_quantized; conv_quantized] 2).
    vm_compute. reflexivity.
Defined.

(** X9.  The scale argument never reaches the text.  Whatever the layers
    and the scale, a generated text ends with the one footer, in which the
    call of [initialize] reads [{scale}] as in the template, and it is the
    text generated for every other scale. *)
Theorem generate_move_code_footer (ws : list Fixed.layer) (scale : N) (text : string) :
  generate_move_code ws scale = Return text ->
  (exists body, text = (MoveText.header ++ body ++ MoveText.footer)%string) /\
  contains "create_model_signed_fixed(&mut graph, {scale});" text = true /\
  forall scale', generate_move_code ws scale' = Return text.
Proof.
  intros H. rewrite generate_move_code_cases in H.
  destruct (first_bad_shape ws) as [n|] eqn:Hb; [discriminate|].
  injection H as <-. split; [|split].
  - exists (join (map declaration_of ws) ++ join (map weight_block_of ws))%string.
    unfold module_text. now rewrite !append_assoc.
  - unfold module_text. rewrite <- (append_nil_r MoveText.footer).
    rewrite <- !append_assoc. rewrite append_assoc.
    apply contains_app. vm_compute. reflexivity.
  - intros scale'. now rewrite generate_move_code_cases, Hb.
Qed.

Lemma generate_move_code_footer_witness :
  exists text,
    generate_move_code [sample_quantized] 7 = Return text /\
    contains "create_model_signed_fixed(&mut graph, {scale});" text = true /\
    generate_move_code [sample_quantized] 8 = Return text.
Proof.
  exists (module_text [sample_quantized]).
  destruct (generate_move_code_footer [sample_quantized] 7 (module_text [sample_quantized]))
    as (_ & Hc & Hs); [reflexivity|].
  split; [reflexivity|]. split; [exact Hc | exact (Hs 8%N)].
Defined.

(** ** The files *)

Section Files.

Lemma config_get_network (c : config) :
  generate_move_toml c =
    network <- config_get c "NETWORK" ;; Return (TomlText.manifest network).
Proof. reflexivity. Qed.

Lemma generate_move_files_cases (ws : list Fixed.layer) (scale : N) (c : config) :
  generate_move_files ws scale c =
    match config_get c "NETWORK" with
    | Raise e => ([Makedirs sources_dir], Raise e)
    | Return network =>
        match first_bad_shape ws with
        | Some n =>
            ([Makedirs sources_dir; WriteFile toml_path (TomlText.manifest network)],
             Raise (ValueError_unpack n))
        | None =>
            ([Makedirs sources_dir;
              WriteFile toml_path (TomlText.manifest network);
              WriteFile move_path (module_text ws)],
             Return tt)
        end
    end.
Proof.
  unfold generate_move_files. rewrite config_get_network, generate_move_code_cases.
  destruct (config_get c "NETWORK") as [network|e]; [|reflexivity].
  destruct (first_bad_shape ws) as [n|]; reflexivity.
Qed.

End Files.

(** X10.  On layers whose printed integers have at most 4300 digits
    each, the limit of [str], [generate_move_files] creates the directory
    first, writes [Move.toml] as soon as the configuration names the
    network, and only then generates the module: without [NETWORK] it
    raises [KeyError] with no file written; with a kernel shape that has
    not two components it raises [ValueError] with [Move.toml] written and
    [model.move] not; otherwise it writes both, the manifest first. *)
Theorem generate_move_files_outcome (ws : list Fixed.layer) (scale : N) (c : config) :
  printable ws = true ->
  generate_move_files ws scale c =
    match config_get c "NETWORK" with
    | Raise e => ([Makedirs sources_dir], Raise e)
    | Return network =>
        match first_bad_shape ws with
        | Some n =>
            ([Makedirs sources_dir; WriteFile toml_path (TomlText.manifest network)],
             Raise (ValueError_unpack n))
        | None =>
            ([Makedirs sources_dir;
              WriteFile toml_path (TomlText.manifest network);
              WriteFile move_path (module_text ws)],
             Return tt)
        end
    end.
Proof. intros _. apply generate_move_files_cases. Qed.

Lemma generate_move_files_outcome_witness :
  generate_move_files [sample_quantized] 2 testnet_config =
    ([Makedirs sources_dir;
      WriteFile toml_path (TomlText.manifest "testnet");
      WriteFile move_path (module_text [sample_quantized])],
     Return tt).
Proof.
  apply (generate_move_files_outcome [sample_quantized] 2 testnet_config).
  vm_compute. reflexivity.
Defined.

Example generate_move_files_partial :
  generate_move_files [conv_quantized] 0 testnet_config =
    ([Makedirs sources_dir; WriteFile toml_path (TomlText.manifest "testnet")],
     Raise (ValueError_unpack 4)) /\
  generate_move_files [conv_quantized] 0 [] =
    ([Makedirs sources_dir], Raise (KeyError "NETWORK")).
Proof. split; reflexivity. Qed.

(** ** From the model to the files *)

Section Pipeline.

Lemma io_bind_pure_return {A B : Type} (a : A) (k : A -> io B) :
  io_bind (pure (Return a)) k = k a.
Proof. unfold io_bind, pure. destruct (k a). reflexivity. Qed.

Lemma io_bind_pure_raise {A B : Type} (e : exn) (k : A -> io B) :
  io_bind (pure (@Raise A e)) k = ([], Raise e).
Proof. reflexivity. Qed.

Lemma main_generate_cases (model : Keras.model) (h5 : option H5.file)
    (scale : N) (c : config) :
  main_generate (Some model) h5 scale c =
    match convert_weights_to_fixed (map record_of (filter retained model)) scale with
    | Raise e => ([], Raise e)
    | Return qs => generate_move_files qs scale c
    end.
Proof.
  unfold main_generate. cbn [load_h5_model].
  rewrite io_bind_pure_return, load_keras_layers_filter. cbn [app].
  destruct (convert_weights_to_fixed _ scale) as [qs|e];
    [now rewrite io_bind_pure_return | apply io_bind_pure_raise].
Qed.


Lemma quantized_rank2 (scale : N) (ws : list Weights.layer) (qs : list Fixed.layer) :
  Forall2 (quantized scale) ws qs ->
  Forall (fun l => List.length (Weights.shape (Weights.kernel l)) = 2%nat) ws ->
  first_bad_shape qs = None.
Proof.
  induction 1 as [|l q ws qs Hq _ IH]; intros Hws; [reflexivity|].
  inversion Hws as [|? ? Hl Hrest]; subst. simpl.
  rewrite (quantized_kernel_shape _ _ _ Hq), Hl. simpl. now apply IH.
Qed.

Lemma convert_weights_to_fixed_quantized (ws : list Weights.layer) (scale : N)
    (qs : list Fixed.layer) :
  convert_weights_to_fixed ws scale = Return qs -> Forall2 (quantized scale) ws qs.
Proof.
  rewrite convert_weights_to_fixed_mapM. intros H. apply mapM_Forall2 in H.
  induction H as [|l q ls qs' Hq _ IH]; constructor; trivial.
  now apply convert_layer_quantized.
Qed.

Lemma retained_records_rank2 (model : Keras.model) :
  Forall matrix_kernel model ->
  Forall (fun l => List.length (Weights.shape (Weights.kernel l)) = 2%nat)
         (map record_of (filter retained model)).
Proof.
  intros H. apply Forall_forall. intros l Hl.
  apply in_map_iff in Hl. destruct Hl as (kl & <- & Hkl).
  apply filter_In in Hkl. destruct Hkl as [Hin Hr].
  rewrite Forall_forall in H. specialize (H kl Hin Hr).
  simpl. unfold shape_list. now rewrite length_map.
Qed.

End Pipeline.

(** X11.  The whole run succeeds on a loaded model as soon as the
    configuration names the network, the kernel of every retained layer has
    two axes and every element has an encoding: the directory is created
    and the two files are written, [Move.toml] with the manifest of the
    network and [model.move] with the text generated for the quantized
    layers, which are the pass's output on the retained layers in order. *)
Theorem main_generate_succeeds (model : Keras.model) (h5 : option H5.file)
    (scale : N) (c : config) (network : string) :
  config_get c "NETWORK" = Return network ->
  Forall matrix_kernel model ->
  encodable (map record_of (filter retained model)) scale ->
  exists qs,
    convert_weights_to_fixed (map record_of (filter retained model)) scale = Return qs /\
    Forall2 (quantized scale) (map record_of (filter retained model)) qs /\
    main_generate (Some model) h5 scale c =
      ([Makedirs sources_dir;
        WriteFile toml_path (TomlText.manifest network);
        WriteFile move_path (module_text qs)],
       Return tt).
Proof.
  intros Hnet Hm Henc.
  destruct (convert_weights_to_fixed_total _ scale Henc) as [qs Hqs].
  pose proof (convert_weights_to_fixed_quantized _ _ _ Hqs) as Hq.
  exists qs. split; [assumption|]. split; [assumption|].
  rewrite main_generate_cases, Hqs, generate_move_files_cases, Hnet.
  now rewrite (quantized_rank2 scale _ qs Hq (retained_records_rank2 model Hm)).
Qed.

Lemma main_generate_succeeds_witness :
  exists qs,
    convert_weights_to_fixed (map record_of (filter retained model_once)) 2 = Return qs /\
    Forall2 (quantized 2) (map record_of (filter retained model_once)) qs /\
    main_generate (Some model_once) None 2 testnet_config =
      ([Makedirs sources_dir;
        WriteFile toml_path (TomlText.manifest "testnet");
        WriteFile move_path (module_text qs)],
       Return tt).
Proof.
  apply (main_generate_succeeds model_once None 2 testnet_config "testnet").
  - reflexivity.
  - constructor; [intros _; reflexivity | constructor].
  - intros layer x [<-|[]] Hx. simpl in Hx.
    destruct Hx as [<-|[<-|[<-|[]]]]; eexists; vm_compute; reflexivity.
Defined.


Example copy2_main_generate_differs :
  exists model,
    files_written (fst (main_generate (Some model) None 0 testnet_config)) = [toml_path] /\
    files_written (fst (Copy2.main_generate (Return model) 0 testnet_config)) = [].
Proof.
  exists [ {| Keras.name := "norm";
              Keras.weights := [array1 [Sample.one]; array1 [Sample.half]] |} ].
  split; reflexivity.
Qed.

(** X13.  A file none of whose top-level names has [dense] as a substring
    is read by the second loader as a model without layers, with no
    exception; the run then writes a module that declares no layer: the
    header followed by the footer. *)
Theorem main_generate_empty_fallback (f : H5.file) (scale : N) (c : config)
    (network : string) :
  forallb (fun name => negb (contains "dense" name)) (map fst f) = true ->
  config_get c "NETWORK" = Return network ->
  load_h5_model None (Some f) = Return [] /\
  main_generate None (Some f) scale c =
    ([Makedirs sources_dir;
      WriteFile toml_path (TomlText.manifest network);
      WriteFile move_path (MoveText.header ++ MoveText.footer)],
     Return tt).
Proof.
  intros Hf Hnet.
  assert (Hload : load_h5_model None (Some f) = Return []).
  { unfold load_h5_model.
    assert (H : forall members acc,
               forallb (fun name => negb (contains "dense" name)) (map fst members) = true ->
               load_h5_layers f members acc = Return acc).
    { induction members as [|[name n] rest IH]; intros acc Hm; [reflexivity|].
      simpl in Hm. apply andb_true_iff in Hm. destruct Hm as [Hn Hrest].
      rewrite load_h5_layers_step. apply negb_true_iff in Hn. rewrite Hn. now apply IH. }
    now rewrite (H f []). }
  split; [assumption|].
  unfold main_generate. rewrite Hload, io_bind_pure_return.
  change (convert_weights_to_fixed [] scale) with (@Return (list Fixed.layer) []).
  rewrite io_bind_pure_return, generate_move_files_cases, Hnet. reflexivity.
Qed.

Lemma main_generate_empty_fallback_witness :
  load_h5_model None (Some keras_file) = Return [] /\
  main_generate None (Some keras_file) 2 testnet_config =
    ([Makedirs sources_dir;
      WriteFile toml_path (TomlText.manifest "testnet");
      WriteFile move_path (MoveText.header ++ MoveText.footer)],
     Return tt).
Proof.
  apply (main_generate_empty_fallback keras_file 2 testnet_config "testnet"); reflexivity.
Defined.

(** ** The range of the codec *)

Section CodecRange.

Lemma shr_fexp_lt (p : positive) (e : Z) (l : location) :
  let '(mrs, _) := shr_fexp PyFloat.prec PyFloat.emax (Z.pos p) e l in
  0 <= shr_m mrs < 2 ^ 53.
Proof.
  unfold shr_fexp, shr. cbn [Zdigits2].
  pose proof (digits2_pos_bound p) as [Hlo Hhi].
  set (D := Z.pos (digits2_pos p)) in *.
  assert (HD : 0 < D) by (unfold D; lia).
  destruct (fexp PyFloat.prec PyFloat.emax (D + e) - e) as [|q|q] eqn:Hn;
    rewrite ?shr_m_of_loc.
  - assert (D <= 53) by (unfold fexp, emin, PyFloat.prec, PyFloat.emax in Hn; lia).
    assert (2 ^ D <= 2 ^ 53) by (apply Z.pow_le_mono_r; lia). lia.
  - assert (Hq : D - 53 <= Z.pos q)
      by (unfold fexp, emin, PyFloat.prec, PyFloat.emax in Hn; lia).
    rewrite shr_m_iter by (rewrite shr_m_of_loc; lia).
    rewrite shr_m_of_loc, Z.shiftr_div_pow2 by lia.
    assert (Hpq : 0 < 2 ^ Z.pos q) by (apply Z.pow_pos_nonneg; lia).
    split; [apply Z.div_pos; lia|].
    apply Z.div_lt_upper_bound; trivial.
    assert (2 ^ D <= 2 ^ (Z.pos q + 53)) by (apply Z.pow_le_mono_r; lia).
    rewrite Z.pow_add_r in * by lia. lia.
  - assert (D <= 53) by (unfold fexp, emin, PyFloat.prec, PyFloat.emax in Hn; lia).
    assert (2 ^ D <= 2 ^ 53) by (apply Z.pow_le_mono_r; lia). lia.
Qed.

Lemma shr_fexp_zero (e : Z) (l : location) :
  shr_m (fst (shr_fexp PyFloat.prec PyFloat.emax 0 e l)) = 0.
Proof.
  unfold shr_fexp, shr. destruct (fexp _ _ _ - e) as [|q|q]; cbn [fst];
    rewrite ?shr_m_iter, ?shr_m_of_loc; try reflexivity.
  - apply Z.shiftr_0_l.
  - rewrite shr_m_of_loc. lia.
Qed.

Lemma binary_round_aux_bounded (sx : bool) (p : positive) (ex : Z) (lx : location)
    (s : bool) (m : positive) (e : Z) :
  binary_round_aux PyFloat.prec PyFloat.emax sx (Z.pos p) ex lx = S754_finite s m e ->
  Z.pos m < 2 ^ 53 /\ e <= 971.
Proof.
  unfold binary_round_aux.
  pose proof (shr_fexp_lt p ex lx) as H1.
  destruct (shr_fexp PyFloat.prec PyFloat.emax (Z.pos p) ex lx) as [mrs' e'].
  assert (Hm1 : 0 <= round_nearest_even (shr_m mrs') (loc_of_shr_record mrs')).
  { destruct (loc_of_shr_record mrs') as [|[| |]]; simpl; try lia.
    destruct (Z.even _); lia. }
  destruct (round_nearest_even (shr_m mrs') (loc_of_shr_record mrs')) as [|p1|p1];
    try lia.
  - pose proof (shr_fexp_zero e' loc_Exact) as H0.
    destruct (shr_fexp PyFloat.prec PyFloat.emax 0 e' loc_Exact) as [mrs'' e''].
    cbn [fst] in H0. rewrite H0. discriminate.
  - pose proof (shr_fexp_lt p1 e' loc_Exact) as H2.
    destruct (shr_fexp PyFloat.prec PyFloat.emax (Z.pos p1) e' loc_Exact) as [mrs'' e''].
    destruct (shr_m mrs'') as [|m''|m'']; try discriminate.
    destruct (e'' <=? PyFloat.emax - PyFloat.prec) eqn:He; [|discriminate].
    intros [= _ <- <-]. apply Z.leb_le in He.
    unfold PyFloat.emax, PyFloat.prec in He. lia.
Qed.

Lemma round_half_even_lt (m e : Z) :
  0 <= m < 2 ^ 53 -> e <= 971 -> PyFloat.round_half_even m e < 2 ^ 1024.
Proof.
  intros Hm He. unfold PyFloat.round_half_even.
  destruct (0 <=? e) eqn:H0.
  - apply Z.leb_le in H0.
    assert (2 ^ e <= 2 ^ 971) by (apply Z.pow_le_mono_r; lia).
    assert (0 < 2 ^ e) by (apply Z.pow_pos_nonneg; lia).
    replace (2 ^ 1024) with (2 ^ 53 * 2 ^ 971) by (rewrite <- Z.pow_add_r; [reflexivity|lia|lia]).
    nia.
  - apply Z.leb_gt in H0.
    assert (Hd : 0 < 2 ^ (- e)) by (apply Z.pow_pos_nonneg; lia).
    assert (Hq : m / 2 ^ (- e) <= m) by (apply Z.div_le_upper_bound; nia).
    assert (2 ^ 53 < 2 ^ 1024) by (apply Z.pow_lt_mono_r; lia).
    cbv zeta. destruct (2 * (m mod 2 ^ (- e)) ?= 2 ^ (- e)); [|lia|lia].
    destruct (Z.even _); lia.
Qed.

Lemma scaled_bounded (x : PyFloat.float) (scale : N) (s : bool) (m : positive) (e : Z) :
  (scale <= 308)%N ->
  scaled x scale = S754_finite s m e -> Z.pos m < 2 ^ 53 /\ e <= 971.
Proof.
  intros Hs. pose proof (pow10_float_finite scale Hs) as Hf. unfold scaled.
  destruct (pow10_float scale) as [| | |[|] mf ef]; try discriminate.
  destruct x as [sx|sx| |sx mx ex]; try discriminate.
  unfold PyFloat.mul, PyFloat.abs, SFabs, SFmul. apply binary_round_aux_bounded.
Qed.

Lemma float_to_fixed_range (x : PyFloat.float) (scale : N) (s m : Z) :
  float_to_fixed x scale = Return (s, m) ->
  (s = 0 \/ s = 1) /\ 0 <= m < 2 ^ 1024.
Proof.
  intros H. destruct (N.le_gt_cases scale 308) as [Hs|Hs].
  - rewrite (float_to_fixed_scaled x scale Hs) in H.
    pose proof (nearest_nonneg (scaled x scale)) as Hnn.
    pose proof (mul_abs_pos_sign x (pow10_float scale) (pow10_float_finite scale Hs)) as Hsg.
    fold (scaled x scale) in Hsg.
    destruct (scaled x scale) as [sz|sz| |sp mp ep] eqn:Hsc; try discriminate;
      simpl in H; injection H as <- <-.
    + split; [|split; [lia|]].
      * unfold sign_bit. destruct (PyFloat.lt x PyFloat.pos_zero); auto.
      * apply Z.pow_pos_nonneg; lia.
    + subst sp. destruct (scaled_bounded x scale _ _ _ Hs Hsc) as [Hm He].
      split; [|split].
      * unfold sign_bit. destruct (PyFloat.lt x PyFloat.pos_zero); auto.
      * apply round_half_even_nonneg. lia.
      * apply round_half_even_lt; lia.
  - rewrite (float_to_fixed_scale_large x scale Hs) in H. discriminate.
Qed.

Lemma encoded_in_range (scale : N) (vals : list PyFloat.float) (e : Fixed.entry) :
  encoded scale vals e -> in_range e.
Proof.
  intros (Hlm & Hls & Henc). split; apply Forall_forall.
  - intros s Hin. apply In_nth_error in Hin. destruct Hin as [i Hi].
    assert (Hlt : (i < List.length vals)%nat)
      by (rewrite <- Hls; apply nth_error_Some; congruence).
    apply nth_error_Some in Hlt.
    destruct (nth_error vals i) as [x|] eqn:Hx; [|congruence].
    destruct (Henc i x Hx) as (s' & m' & Hc & Hs' & _).
    assert (s' = s) by congruence. subst s'.
    apply (float_to_fixed_range x scale s m' Hc).
  - intros m Hin. apply In_nth_error in Hin. destruct Hin as [i Hi].
    assert (Hlt : (i < List.length vals)%nat)
      by (rewrite <- Hlm; apply nth_error_Some; congruence).
    apply nth_error_Some in Hlt.
    destruct (nth_error vals i) as [x|] eqn:Hx; [|congruence].
    destruct (Henc i x Hx) as (s' & m' & Hc & _ & Hm').
    assert (m' = m) by congruence. subst m'.
    apply (float_to_fixed_range x scale s' m Hc).
Qed.

End CodecRange.

(** X14.  Whatever the pass returns, every sign in it is 0 or 1 and every
    magnitude is an integer from 0 to below [2 ** 1024], the range of the
    doubles; the same holds of every result of the codec. *)
Theorem convert_weights_to_fixed_range (weights : list Weights.layer) (scale : N)
    (converted : list Fixed.layer) :
  convert_weights_to_fixed weights scale = Return converted ->
  Forall (fun q => in_range (Fixed.kernel q) /\ in_range (Fixed.bias q)) converted /\
  forall x s m, float_to_fixed x scale = Return (s, m) ->
                (s = 0 \/ s = 1) /\ 0 <= m < 2 ^ 1024.
Proof.
  intros H. split; [|intros x s m; apply float_to_fixed_range].
  apply convert_weights_to_fixed_quantized in H.
  induction H as [|l q ws qs Hq _ IH]; constructor; trivial.
  split; eapply encoded_in_range.
  - apply (quantized_kernel _ _ _ Hq).
  - apply (quantized_bias _ _ _ Hq).
Qed.

Lemma convert_weights_to_fixed_range_witness :
  Forall (fun q => in_range (Fixed.kernel q) /\ in_range (Fixed.bias q)) [sample_quantized] /\
  forall x s m, float_to_fixed x 2 = Return (s, m) ->
                (s = 0 \/ s = 1) /\ 0 <= m < 2 ^ 1024.
Proof.
  apply (convert_weights_to_fixed_range scenario_a 2 [sample_quantized]).
  vm_compute. reflexivity.
Defined.

(** X15.  The magnitude does not depend on the sign of the input.  The codec
    on [-x] returns the magnitude it returns on [x], or raises what it
    raises on [x]; the sign bit is the other one for a finite number that
    is not zero and stays 0 for a zero. *)
Theorem float_to_fixed_neg (x : PyFloat.float) (scale : N) :
  float_to_fixed (float_neg x) scale =
    ('(_, m) <- float_to_fixed x scale ;; Return (sign_bit (float_neg x), m)) /\
  match x with
  | S754_finite _ _ _ => sign_bit (float_neg x) = 1 - sign_bit x
  | S754_zero _ => sign_bit (float_neg x) = 0 /\ sign_bit x = 0
  | _ => True
  end.
Proof.
  split.
  - unfold float_to_fixed, float_neg.
    replace (PyFloat.abs (SFopp x)) with (PyFloat.abs x) by (destruct x; reflexivity).
    destruct (PyFloat.of_int _) as [f|e]; cbn [bind]; [|reflexivity].
    destruct (PyFloat.round _) as [m|e]; reflexivity.
  - destruct x as [[|]|[|]| |[|] m e]; simpl; auto.
Qed.

(** ** Scale zero *)

Section ScaleZero.

Lemma shr_1_iter_xO (n m : positive) :
  iter_pos shr_1 n (Build_shr_record (Z.pos (Pos.iter xO m n)) false false) =
  Build_shr_record (Z.pos m) false false.
Proof.
  revert m. induction n as [n IH|n IH|]; intros m; cbn [iter_pos Pos.iter].
  - cbn [shr_1 orb]. now rewrite !IH.
  - now rewrite !IH.
  - reflexivity.
Qed.

Lemma digits2_pos_iter_xO (n m : positive) :
  digits2_pos (Pos.iter xO m n) = (digits2_pos m + n)%positive.
Proof.
  revert m. induction n as [n IH|n IH|]; intros m; cbn [Pos.iter digits2_pos].
  - rewrite !IH. lia.
  - rewrite !IH. lia.
  - lia.
Qed.

Lemma mul_one_exact (m : positive) (e : Z) :
  bounded PyFloat.prec PyFloat.emax m e = true ->
  PyFloat.mul (S754_finite false m e) (S754_finite false 4503599627370496 (-52)) =
  S754_finite false m e.
Proof.
  unfold bounded, canonical_mantissa. intros Hb.
  apply andb_prop in Hb. destruct Hb as [Hc He].
  apply Z.eqb_eq in Hc. apply Z.leb_le in He.
  unfold PyFloat.mul, SFmul. cbn [xorb].
  replace (m * 4503599627370496)%positive with (Pos.iter xO m 52)
    by (rewrite Pos.mul_comm; reflexivity).
  unfold binary_round_aux, shr_fexp. cbn [Zdigits2].
  rewrite digits2_pos_iter_xO, Pos2Z.inj_add.
  set (D := Z.pos (digits2_pos m)) in *.
  replace (fexp PyFloat.prec PyFloat.emax (D + 52 + (e + -52)) - (e + -52)) with 52
    by (unfold fexp, emin, PyFloat.prec, PyFloat.emax in *; lia).
  unfold shr at 1.
  replace (shr_record_of_loc (Z.pos (Pos.iter xO m 52)) loc_Exact)
    with (Build_shr_record (Z.pos (Pos.iter xO m 52)) false false) by reflexivity.
  rewrite shr_1_iter_xO.
  cbn [shr_m loc_of_shr_record round_nearest_even Zdigits2].
  fold D.
  replace (fexp PyFloat.prec PyFloat.emax (D + (e + -52 + 52)) - (e + -52 + 52)) with 0
    by (unfold fexp, emin, PyFloat.prec, PyFloat.emax in *; lia).
  cbn [shr shr_record_of_loc shr_m].
  replace (e + -52 + 52) with e by lia.
  apply Z.leb_le in He. now rewrite He.
Qed.

End ScaleZero.

(** X16.  At scale 0 nothing is scaled.  For a finite double the codec returns
    the sign bit and the integer nearest to [abs(x)], ties to the even one;
    the product by [10 ** 0] is exact. *)
Theorem float_to_fixed_scale_zero (x : PyFloat.float) :
  valid_binary PyFloat.prec PyFloat.emax x = true ->
  PyFloat.is_finite x = true ->
  scaled x 0 = PyFloat.abs x /\
  float_to_fixed x 0 = Return (sign_bit x, nearest x).
Proof.
  intros Hv Hf.
  assert (Hs : scaled x 0 = PyFloat.abs x).
  { unfold scaled.
    replace (pow10_float 0) with (S754_finite false 4503599627370496 (-52))
      by (vm_compute; reflexivity).
    destruct x as [sx|sx| |sx mx ex]; try discriminate.
    - reflexivity.
    - apply mul_one_exact. exact Hv. }
  split; trivial.
  rewrite (float_to_fixed_scaled x 0) by lia. rewrite Hs.
  destruct x as [sx|sx| |sx mx ex]; try discriminate; reflexivity.
Qed.

Lemma float_to_fixed_scale_zero_witness :
  scaled Sample.d_3_7 0 = PyFloat.abs Sample.d_3_7 /\
  float_to_fixed Sample.d_3_7 0 = Return (sign_bit Sample.d_3_7, nearest Sample.d_3_7).
Proof. apply (float_to_fixed_scale_zero Sample.d_3_7); reflexivity. Defined.

(** ** The pass over a model in two parts *)

Lemma mapM_app {A B : Type} (f : A -> result B) (xs ys : list A) :
  mapM f (xs ++ ys) = (us <- mapM f xs ;; vs <- mapM f ys ;; Return (us ++ vs)).
Proof.
  induction xs as [|x xs IH]; simpl.
  - destruct (mapM f ys); reflexivity.
  - destruct (f x) as [y|e]; simpl; [|reflexivity]. rewrite IH.
    destruct (mapM f xs) as [us|e]; simpl; [|reflexivity].
    destruct (mapM f ys); reflexivity.
Qed.

(** X17.  The layers are converted one by one, in order, none looking at
    another.  The pass over two lists of records put end to end returns
    the two results put end to end, and raises what the first part raises,
    else what the second part raises. *)
Theorem convert_weights_to_fixed_app (front back : list Weights.layer) (scale : N) :
  convert_weights_to_fixed (front ++ back) scale =
    (converted_front <- convert_weights_to_fixed front scale ;;
     converted_back <- convert_weights_to_fixed back scale ;;
     Return (converted_front ++ converted_back)).
Proof. rewrite !convert_weights_to_fixed_mapM. apply mapM_app. Qed.

(** ** The banner *)

Section BannerRows.

Lemma banner_loop_filter (text : string) (output : list string) :
  Banner.banner_loop (filter_string drawn text) output = Banner.banner_loop text output.
Proof.
  revert output. induction text as [|c text IH]; intros output; [reflexivity|].
  cbn [filter_string Banner.banner_loop]. unfold drawn.
  destruct (Banner.letters c) as [glyph|] eqn:Hl.
  - cbn [Banner.banner_loop]. rewrite Hl. apply IH.
  - destruct (Ascii.eqb c " ") eqn:Hs.
    + cbn [Banner.banner_loop]. rewrite Hl, Hs. apply IH.
    + apply IH.
Qed.

Let plain (row : string) : Prop := count_char (ascii_of_nat 10) row = 0%nat.

Lemma add_letter_rows (glyph colors output : list string) :
  Forall plain glyph -> Forall plain colors -> Forall plain output ->
  Forall plain (Banner.add_letter glyph colors output) /\
  List.length (Banner.add_letter glyph colors output) = List.length output.
Proof.
  intros Hg. revert colors output.
  induction Hg as [|line glyph Hline _ IH]; intros colors output Hc Ho; [now split|].
  destruct Hc as [|color colors Hcolor Hc]; [now split|].
  destruct Ho as [|row output Hrow Ho]; [now split|].
  cbn [Banner.add_letter]. destruct (IH colors output Hc Ho) as [IH1 IH2].
  split; [constructor; trivial|cbn [List.length]; now rewrite IH2].
  unfold plain in *. rewrite !count_char_app, Hrow, Hcolor, Hline. reflexivity.
Qed.

Lemma add_to_rows_rows (n : nat) (suffix : string) (output : list string) :
  plain suffix -> Forall plain output ->
  Forall plain (Banner.add_to_rows n suffix output) /\
  List.length (Banner.add_to_rows n suffix output) = List.length output.
Proof.
  intros Hs. revert output. induction n as [|n IH]; intros output Ho; [now split|].
  destruct Ho as [|row output Hrow Ho]; [now split|].
  cbn [Banner.add_to_rows]. destruct (IH output Ho) as [IH1 IH2].
  split; [constructor; trivial|cbn [List.length]; now rewrite IH2].
  unfold plain in *. now rewrite count_char_app, Hrow, Hs.
Qed.

Lemma letters_plain (c : ascii) (glyph : list string) :
  Banner.letters c = Some glyph -> Forall plain glyph.
Proof.
  unfold Banner.letters.
  repeat (destruct (Ascii.eqb c _);
          [intros [= <-]; repeat constructor|]).
  discriminate.
Qed.

Lemma banner_loop_rows (text : string) (output : list string) :
  Forall plain output ->
  Forall plain (Banner.banner_loop text output) /\
  List.length (Banner.banner_loop text output) = List.length output.
Proof.
  revert output. induction text as [|c text IH]; intros output Ho; [now split|].
  cbn [Banner.banner_loop].
  destruct (Banner.letters c) as [glyph|] eqn:Hl.
  - destruct (add_letter_rows glyph Banner.colors output) as [H1 H2]; trivial.
    + eapply letters_plain, Hl.
    + repeat constructor.
    + destruct (IH _ H1) as [H3 H4]. split; [exact H3|congruence].
  - destruct (Ascii.eqb c " ").
    + destruct (add_to_rows_rows 5 "  " output) as [H1 H2]; trivial.
      * reflexivity.
      * destruct (IH _ H1) as [H3 H4]. split; [exact H3|congruence].
    + apply IH, Ho.
Qed.

Lemma concat_count (rows : list string) :
  Forall plain rows ->
  count_char (ascii_of_nat 10) (String.concat MoveText.nl rows) =
  Nat.pred (List.length rows).
Proof.
  induction 1 as [|row rows Hrow Hrows IH]; [reflexivity|].
  destruct rows as [|row' rows]; [exact Hrow|].
  change (String.concat MoveText.nl (row :: row' :: rows))
    with (row ++ MoveText.nl ++ String.concat MoveText.nl (row' :: rows))%string.
  rewrite !count_char_app, IH, Hrow. reflexivity.
Qed.

End BannerRows.

(** X18.  The banner draws the eight letters O, P, E, N, G, R, A, H and the
    space and nothing else: every other character of the text, a small
    letter included, is left out without a trace. *)
Theorem print_banner_ignores (text : string) :
  print_banner text = print_banner (filter_string drawn text).
Proof. unfold print_banner. now rewrite banner_loop_filter. Qed.

(** X19.  Whatever the text, the banner is five rows between an empty line
    and two empty lines: what is printed holds exactly eight line feeds,
    the first character and the last three among them. *)
Theorem print_banner_rows (text : string) :
  count_char (ascii_of_nat 10) (print_banner text) = 8%nat /\
  exists rows, List.length rows = 5%nat /\
    Forall (fun row => count_char (ascii_of_nat 10) row = 0%nat) rows /\
    print_banner text =
      (MoveText.nl ++ String.concat MoveText.nl rows ++
       MoveText.nl ++ MoveText.nl ++ MoveText.nl)%string.
Proof.
  destruct (banner_loop_rows text Banner.empty_rows) as [Hp Hl];
    [repeat constructor|].
  split.
  - unfold print_banner. rewrite !count_char_app, concat_count, Hl by exact Hp.
    reflexivity.
  - exists (Banner.banner_loop text Banner.empty_rows). repeat split; trivial.
Qed.
